(** * A shallow embedding of [examples/simple_mcp_server.py]

    The server reads one JSON request per line, dispatches it to one of five
    tools and prints one JSON response per line.  The embedding follows the
    Python source statement by statement:

    - JSON values are the values [json.loads] produces (None, bool, int,
      float, str, list, dict).  A [str] is a Rocq [string], one character per
      code point, so the development covers text whose code points are below
      256; a float is carried as its IEEE-754 bit pattern, and arithmetic on
      floats is the host's.
    - Exceptions are explicit: a computation returns [Return v] or [Raise e],
      and [try_except] is Python's [try ... except Exception].
    - The effects are threaded through a [world]: the file system, the
      number of clock reads and the standard streams of the process.  A
      ghost [trace] records each entry into the dispatcher, each entry into
      [call_tool] and each exception caught by an [except] clause.
    - The file system maps a path str to what it names.  Two strs that name
      one file (a relative and an absolute path, a link) are not related by
      the model: every statement speaks of one path str.
    - Standard input is the sequence of results of the calls of [readline]
      still to come; standard output is the sequence of responses printed,
      the serialisation by [json.dumps] is not modelled.  A handler reaches
      the streams only by opening a file descriptor or a device, and both
      [readline] and [print] raise on a closed stream.
    - [eval] on a short expression of decimal integers and the operators
      [+ - * /] is a parser and an evaluator written here after Python's
      grammar; integers are exact, and each operation on a float is one call
      of the host's arithmetic.
    - What the Python standard library and the operating system decide
      (the JSON parser, [eval] outside that fragment, Unicode case mapping,
      [repr], the platform queries, [strftime], permissions, failures of
      writes, descriptors and devices) is a field of the record [Host];
      every theorem holds for every host. *)

From Stdlib Require Import ZArith List Ascii String DecimalString Lia Bool.
From stdpp Require Import gmap strings.
Import ListNotations.
Open Scope string_scope.
Open Scope list_scope.
Open Scope Z_scope.
Set Warnings "-register-all".

(** ** Characters and text *)

Definition LF : ascii := "010"%char.
Definition CR : ascii := "013"%char.
Definition nl : string := String LF "".

Definition code (c : ascii) : N := N_of_ascii c.

Definition in_range (lo hi : N) (c : ascii) : bool :=
  (lo <=? code c)%N && (code c <=? hi)%N.

Definition is_ascii_char (c : ascii) : bool := (code c <? 128)%N.
Definition is_digit (c : ascii) : bool := in_range 48 57 c.
Definition is_upper (c : ascii) : bool := in_range 65 90 c.
Definition is_lower (c : ascii) : bool := in_range 97 122 c.
Definition is_letter (c : ascii) : bool := is_upper c || is_lower c.

(** Python's notion of white space for [str] ([str.isspace], [str.strip],
    [str.split] and the regular expression class [\s]), on code points below
    256: TAB..CR, the separators FS..US, SPACE, NEL and NBSP. *)
Definition is_space (c : ascii) : bool :=
  in_range 9 13 c || in_range 28 31 c
  || (code c =? 32)%N || (code c =? 133)%N || (code c =? 160)%N.

Definition upper_char (c : ascii) : ascii :=
  if is_lower c then ascii_of_N (code c - 32) else c.
Definition lower_char (c : ascii) : ascii :=
  if is_upper c then ascii_of_N (code c + 32) else c.

Fixpoint string_map (f : ascii -> ascii) (s : string) : string :=
  match s with
  | EmptyString => EmptyString
  | String c s' => String (f c) (string_map f s')
  end.

Fixpoint string_forallb (p : ascii -> bool) (s : string) : bool :=
  match s with
  | EmptyString => true
  | String c s' => p c && string_forallb p s'
  end.

Definition is_ascii (s : string) : bool := string_forallb is_ascii_char s.

(** [s[::-1]] *)
Fixpoint string_rev_onto (s acc : string) : string :=
  match s with
  | EmptyString => acc
  | String c s' => string_rev_onto s' (String c acc)
  end.
Definition str_reverse (s : string) : string := string_rev_onto s "".

(** [s.replace(' ', '')] *)
Fixpoint remove_spaces (s : string) : string :=
  match s with
  | EmptyString => EmptyString
  | String c s' =>
      if (code c =? 32)%N then remove_spaces s' else String c (remove_spaces s')
  end.

(** [len(s.split())]: the number of maximal runs of non-space characters. *)
Fixpoint count_tokens (in_word : bool) (s : string) : nat :=
  match s with
  | EmptyString => 0%nat
  | String c s' =>
      if is_space c then count_tokens false s'
      else if in_word then count_tokens true s'
      else S (count_tokens true s')
  end.

(** [s.strip()] *)
Fixpoint lstrip (s : string) : string :=
  match s with
  | EmptyString => EmptyString
  | String c s' => if is_space c then lstrip s' else s
  end.
Definition py_strip (s : string) : string :=
  str_reverse (lstrip (str_reverse (lstrip s))).

(** [str.title] on ASCII text: a letter is upper-cased when the previous
    character is not a letter and lower-cased otherwise. *)
Fixpoint title_from (prev_cased : bool) (s : string) : string :=
  match s with
  | EmptyString => EmptyString
  | String c s' =>
      if is_letter c
      then String (if prev_cased then lower_char c else upper_char c)
                  (title_from true s')
      else String c (title_from false s')
  end.

(** [str.capitalize] on ASCII text. *)
Definition capitalize_ascii (s : string) : string :=
  match s with
  | EmptyString => EmptyString
  | String c s' => String (upper_char c) (string_map lower_char s')
  end.

Fixpoint join (sep : string) (items : list string) : string :=
  match items with
  | [] => ""
  | [x] => x
  | x :: rest => x +:+ sep +:+ join sep rest
  end.

(** [s.startswith(prefix)] *)
Fixpoint starts_with (prefix s : string) : bool :=
  match prefix with
  | EmptyString => true
  | String a prefix' =>
      match s with
      | EmptyString => false
      | String b s' => Ascii.eqb a b && starts_with prefix' s'
      end
  end.

(** Decimal rendering of integers, as [str(int)] does. *)
Definition str_of_Z (z : Z) : string := NilZero.string_of_int (Z.to_int z).
Definition str_of_nat (n : nat) : string := str_of_Z (Z.of_nat n).

(** [%0<width>d] for a natural number. *)
Fixpoint zeros (n : nat) : string :=
  match n with O => "" | S k => String "0" (zeros k) end.
Definition zero_pad (width n : nat) : string :=
  let digits := str_of_nat n in
  zeros (width - String.length digits) +:+ digits.

(** ** Values, exceptions and results *)

Inductive json : Type :=
| JNull
| JBool (b : bool)
| JInt (z : Z)
| JFloat (bits : Z)
| JStr (s : string)
| JList (items : list json)
| JDict (entries : list (string * json)).

Inductive exn_class : Set :=
| JSONDecodeError | AttributeError | TypeError | KeyError | ValueError
| ZeroDivisionError | OSError | HostError.

Record exn : Type := mkExn { exn_kind : exn_class; exn_msg : string }.

Inductive result (A : Type) : Type :=
| Return (a : A)
| Raise (e : exn).
Arguments Return {A} a.
Arguments Raise {A} e.

Definition type_name (v : json) : string :=
  match v with
  | JNull => "NoneType"
  | JBool _ => "bool"
  | JInt _ => "int"
  | JFloat _ => "float"
  | JStr _ => "str"
  | JList _ => "list"
  | JDict _ => "dict"
  end.

Definition no_attribute (v : json) (attr : string) : exn :=
  mkExn AttributeError
    ("'" +:+ type_name v +:+ "' object has no attribute '" +:+ attr +:+ "'").

(** A dict keeps its entries in insertion order; a key occurs once. *)
Fixpoint dict_get (d : list (string * json)) (k : string) : option json :=
  match d with
  | [] => None
  | (k', v) :: d' => if String.eqb k' k then Some v else dict_get d' k
  end.

(** [v.get(key, default)] *)
Definition py_get (v : json) (key : string) (default : json) : result json :=
  match v with
  | JDict d => Return (match dict_get d key with Some x => x | None => default end)
  | _ => Raise (no_attribute v "get")
  end.

(** [v == "literal"] *)
Definition eq_str (v : json) (s : string) : bool :=
  match v with
  | JStr t => String.eqb t s
  | _ => false
  end.

(** Truth value of a JSON value, as tested by [if v:]. *)
Definition truthy (v : json) : bool :=
  match v with
  | JNull => false
  | JBool b => b
  | JInt z => negb (z =? 0)
  | JFloat bits => negb (bits mod 2 ^ 63 =? 0)
  | JStr s => negb (String.eqb s "")
  | JList l => match l with [] => false | _ => true end
  | JDict d => match d with [] => false | _ => true end
  end.

(** The binary operators of an arithmetic expression, and the values an
    expression takes: an int, or a float carried as its bit pattern. *)
Inductive binop : Set := Add | Sub | Mult | Div.

Inductive num : Set :=
| NInt (z : Z)
| NFloat (bits : Z).

(** ** The host: standard library and operating system *)

Record datetime : Set := mkDatetime {
  year : nat; month : nat; day : nat;
  hour : nat; minute : nat; second : nat; microsecond : nat
}.

(** [datetime.isoformat()] of a naive datetime. *)
Definition isoformat (d : datetime) : string :=
  zero_pad 4 (year d) +:+ "-" +:+ zero_pad 2 (month d) +:+ "-" +:+ zero_pad 2 (day d)
  +:+ "T" +:+ zero_pad 2 (hour d) +:+ ":" +:+ zero_pad 2 (minute d)
  +:+ ":" +:+ zero_pad 2 (second d)
  +:+ (if Nat.eqb (microsecond d) 0 then "" else "." +:+ zero_pad 6 (microsecond d)).

Inductive node : Type :=
| Dir
| File (data : string)
| Special.

Inductive linesep : Set := SepLF | SepCRLF.

(** What standard output received: a response printed by the loop, or text
    a handler wrote through the descriptor. *)
Inductive output : Type :=
| Printed (response : json)
| Written (text : string).

(** The standard streams of the process.  [stdin] lists the results of the
    calls of [readline] still to come, as the decoder of the stream will
    give them: a line, or the exception raised on undecodable input.  The
    end of the stream, which [readline] reports by the empty string, is the
    empty list; an empty string in the list is an end that a terminal
    reports before more input.  A stream whose descriptor was closed raises
    on every use. *)
Record streams : Type := mkStreams {
  stdin : list (result string);
  stdin_closed : option exn;
  stdout : list output;
  stdout_closed : option exn
}.

Record Host : Type := mkHost {
  (* json.loads on a str *)
  json_loads : string -> result json;
  (* repr of floats, lists, dicts and quoted strings *)
  host_repr : json -> string;
  (* eval followed by str(), outside the embedded fragment *)
  host_eval : string -> result string;
  (* one arithmetic operation that involves a float: true division, and
     + - * with a float operand *)
  float_arith : binop -> num -> num -> result num;
  (* what subscripting a dict by a slice raises (TypeError before
     CPython 3.12, KeyError from then on) *)
  dict_slice_error : exn;
  (* Unicode case mapping of text that is not pure ASCII *)
  unicode_upper : string -> string;
  unicode_lower : string -> string;
  unicode_capitalize : string -> string;
  unicode_title : string -> string;
  (* platform and os queries *)
  platform_system : result string;
  platform_release : result string;
  platform_machine : result string;
  platform_processor : result string;
  platform_node : result string;
  os_cpu_count : result (option Z);
  os_getcwd : result string;
  os_expanduser_home : result string;
  os_linesep : linesep;
  (* the clock: the value of the n-th call of datetime.now() *)
  clock : nat -> datetime;
  strftime : datetime -> string -> result string;
  timestamp : datetime -> result Z;
  (* refusals of the operating system on a str path *)
  open_r_fault : string -> option exn;
  open_w_fault : string -> option exn;
  (* a failure of f.write or of closing the file once it was opened and
     truncated (text that cannot be encoded, a full disk), with what is
     left in the file *)
  write_fault : string -> string -> option (exn * string);
  os_listdir : gmap string node -> string -> result (list string);
  stat_size : string -> result Z;
  (* os.path and os.listdir on a path that is not a str (a file
     descriptor, or a TypeError) *)
  isdir_other : json -> result bool;
  isfile_other : json -> result bool;
  exists_other : json -> result bool;
  getsize_other : json -> result Z;
  listdir_other : json -> result (list string);
  (* open on a file descriptor or on a device: reading may consume
     standard input, writing may reach standard output, and leaving the
     with block closes the descriptor, also when it is 0 or 1 *)
  read_other : json -> streams -> result string * streams;
  write_other :
    json -> json -> gmap string node -> streams
    -> result unit * gmap string node * streams
}.

(** ** The world and the computation monad *)

Inductive event : Type :=
| EvDispatch (request : json)
| EvCallTool (tool_name arguments : json)
| EvCaught (e : exn).

Record world : Type := mkWorld {
  fs : gmap string node;
  ticks : nat;
  trace : list event;
  io : streams
}.

Definition M (A : Type) : Type := world -> result A * world.

Definition ret {A} (a : A) : M A := fun w => (Return a, w).
Definition raise {A} (e : exn) : M A := fun w => (Raise e, w).
Definition lift {A} (r : result A) : M A := fun w => (r, w).

Definition bind {A B} (m : M A) (f : A -> M B) : M B :=
  fun w =>
    match m w with
    | (Return a, w') => f a w'
    | (Raise e, w') => (Raise e, w')
    end.

Notation "x <- m ;; k" := (bind m (fun x => k))
  (at level 100, m at next level, right associativity).

Definition add_event (ev : event) (w : world) : world :=
  mkWorld (fs w) (ticks w) (trace w ++ [ev]) (io w).

Definition log (ev : event) : M unit :=
  fun w => (Return tt, add_event ev w).

(** [try: body  except Exception as e: handler(e)] *)
Definition try_except {A} (body : M A) (handler : exn -> M A) : M A :=
  fun w =>
    match body w with
    | (Return a, w') => (Return a, w')
    | (Raise e, w') => (x <- log (EvCaught e) ;; handler e) w'
    end.

(** ** The tool registry ([SimpleMCPServer.__init__]) *)

Definition string_property (description : string) : json :=
  JDict [("type", JStr "string"); ("description", JStr description)].

Definition enum_property (description : string) (values : list string) : json :=
  JDict [("type", JStr "string"); ("description", JStr description);
         ("enum", JList (map JStr values))].

Definition object_schema (properties : list (string * json)) (required : list string) : json :=
  JDict [("type", JStr "object"); ("properties", JDict properties);
         ("required", JList (map JStr required))].

Definition descriptor (name description : string) (inputSchema : json) : json :=
  JDict [("name", JStr name); ("description", JStr description);
         ("inputSchema", inputSchema)].

Definition tools : list (string * json) :=
  [ ("text_transform",
     descriptor "text_transform"
       "Transform text using various operations (uppercase, lowercase, reverse, etc.)"
       (object_schema
          [("text", string_property "The text to transform");
           ("operation",
            enum_property "The operation to perform"
              ["uppercase"; "lowercase"; "reverse"; "capitalize"; "title";
               "count_words"; "count_chars"])]
          ["text"; "operation"]));
    ("calculate",
     descriptor "calculate" "Perform mathematical calculations"
       (object_schema
          [("expression",
            string_property "Mathematical expression to evaluate (e.g., '2 + 3 * 4')")]
          ["expression"]));
    ("system_info",
     descriptor "system_info" "Get system information"
       (object_schema
          [("info_type",
            enum_property "Type of system information to retrieve"
              ["platform"; "cpu"; "memory"; "disk"; "network"; "processes"; "uptime"])]
          ["info_type"]));
    ("file_operations",
     descriptor "file_operations" "Basic file operations (list, read, write)"
       (object_schema
          [("operation",
            enum_property "File operation to perform"
              ["list"; "read"; "write"; "exists"; "size"]);
           ("path", string_property "File or directory path");
           ("content", string_property "Content to write (only for write operation)")]
          ["operation"; "path"]));
    ("current_time",
     descriptor "current_time" "Get current date and time information"
       (object_schema
          [("format",
            enum_property "Time format (iso, human, timestamp, custom)"
              ["iso"; "human"; "timestamp"; "custom"]);
           ("timezone",
            JDict [("type", JStr "string");
                   ("description", JStr "Timezone (default: local)");
                   ("default", JStr "local")]);
           ("custom_format",
            string_property "Custom format string (for custom format type)")]
          ["format"])) ].

(** [key in self.tools]: hashing a list or a dict raises. *)
Definition tools_contains (key : json) : result bool :=
  match key with
  | JStr s => Return (existsb (fun entry => String.eqb (fst entry) s) tools)
  | JList _ | JDict _ =>
      Raise (mkExn TypeError ("unhashable type: '" +:+ type_name key +:+ "'"))
  | _ => Return false
  end.

(** ** Responses *)

Definition text_item (text : json) : json :=
  JDict [("type", JStr "text"); ("text", text)].

(** [{"content": [{"type": "text", "text": text}]}] *)
Definition success (text : json) : json :=
  JDict [("content", JList [text_item text])].

(** [{"content": [{"type": "text", "text": message}], "isError": True}] *)
Definition failure (message : string) : json :=
  JDict [("content", JList [text_item (JStr message)]); ("isError", JBool true)].

(** ** Arithmetic: the allow-list and the embedded evaluator *)

(** The character class [[0-9+\-*/().\s]]. *)
Definition in_class (c : ascii) : bool :=
  is_digit c
  || (code c =? 43)%N || (code c =? 45)%N || (code c =? 42)%N || (code c =? 47)%N
  || (code c =? 40)%N || (code c =? 41)%N || (code c =? 46)%N
  || is_space c.

(** [$]: at the end of the text, or just before a final line feed. *)
Definition at_dollar (s : string) : bool :=
  match s with
  | EmptyString => true
  | String c EmptyString => (code c =? 10)%N
  | _ => false
  end.

(** [re.match(r'^[0-9+\-*/().\s]+$', s)] succeeds: after one or more
    characters of the class the anchor [$] holds. *)
Fixpoint match_class_plus (seen : bool) (s : string) : bool :=
  (seen && at_dollar s)
  || match s with
     | EmptyString => false
     | String c s' => in_class c && match_class_plus true s'
     end.

Definition re_match_expression (v : json) : result bool :=
  match v with
  | JStr s => Return (match_class_plus false s)
  | _ =>
      Raise (mkExn TypeError
               ("expected string or bytes-like object, got '" +:+ type_name v +:+ "'"))
  end.

Inductive token : Set :=
| TNum (n : Z) | TPlus | TMinus | TStar | TSlash | TLParen | TRParen.

Inductive expr : Set :=
| Constant (n : Z)
| UAdd (operand : expr)
| USub (operand : expr)
| BinOp (left : expr) (op : binop) (right : expr).

Fixpoint digits_value (acc : Z) (s : string) : Z :=
  match s with
  | EmptyString => acc
  | String c s' => digits_value (10 * acc + (Z.of_N (code c) - 48)) s'
  end.

(** A decimal literal: a nonzero literal has no leading zero. *)
Definition number_token (literal : string) : option (list token) :=
  match literal with
  | String "0" (String _ _) => None
  | _ => Some [TNum (digits_value 0 literal)]
  end.

Definition flush (pending : option string) : option (list token) :=
  match pending with
  | None => Some []
  | Some literal => number_token literal
  end.

Definition symbol (c : ascii) : option (list token) :=
  if (code c =? 32)%N then Some []
  else if (code c =? 43)%N then Some [TPlus]
  else if (code c =? 45)%N then Some [TMinus]
  else if (code c =? 42)%N then Some [TStar]
  else if (code c =? 47)%N then Some [TSlash]
  else if (code c =? 40)%N then Some [TLParen]
  else if (code c =? 41)%N then Some [TRParen]
  else None.

(** Tokens of an expression made of decimal integers, blanks, parentheses
    and single-character operators; [None] on anything else. *)
Fixpoint tokenize (pending : option string) (s : string) : option (list token) :=
  match s with
  | EmptyString => flush pending
  | String c s' =>
      if is_digit c
      then tokenize (Some (match pending with
                           | Some literal => literal +:+ String c ""
                           | None => String c ""
                           end)) s'
      else match flush pending, symbol c, tokenize None s' with
           | Some number, Some sym, Some rest => Some (number ++ sym ++ rest)
           | _, _, _ => None
           end
  end.

(** Python's grammar for sums, terms and factors over these tokens. *)
Fixpoint parse_sum (fuel : nat) (ts : list token) : option (expr * list token) :=
  match fuel with
  | O => None
  | S f =>
      match parse_term f ts with
      | Some (l, rest) => sum_tail f l rest
      | None => None
      end
  end
with sum_tail (fuel : nat) (l : expr) (ts : list token) : option (expr * list token) :=
  match fuel with
  | O => None
  | S f =>
      match ts with
      | TPlus :: ts' =>
          match parse_term f ts' with
          | Some (r, rest) => sum_tail f (BinOp l Add r) rest
          | None => None
          end
      | TMinus :: ts' =>
          match parse_term f ts' with
          | Some (r, rest) => sum_tail f (BinOp l Sub r) rest
          | None => None
          end
      | _ => Some (l, ts)
      end
  end
with parse_term (fuel : nat) (ts : list token) : option (expr * list token) :=
  match fuel with
  | O => None
  | S f =>
      match parse_factor f ts with
      | Some (l, rest) => term_tail f l rest
      | None => None
      end
  end
with term_tail (fuel : nat) (l : expr) (ts : list token) : option (expr * list token) :=
  match fuel with
  | O => None
  | S f =>
      match ts with
      | TStar :: ts' =>
          match parse_factor f ts' with
          | Some (r, rest) => term_tail f (BinOp l Mult r) rest
          | None => None
          end
      | TSlash :: ts' =>
          match parse_factor f ts' with
          | Some (r, rest) => term_tail f (BinOp l Div r) rest
          | None => None
          end
      | _ => Some (l, ts)
      end
  end
with parse_factor (fuel : nat) (ts : list token) : option (expr * list token) :=
  match fuel with
  | O => None
  | S f =>
      match ts with
      | TPlus :: ts' =>
          match parse_factor f ts' with
          | Some (e, rest) => Some (UAdd e, rest)
          | None => None
          end
      | TMinus :: ts' =>
          match parse_factor f ts' with
          | Some (e, rest) => Some (USub e, rest)
          | None => None
          end
      | TNum n :: ts' => Some (Constant n, ts')
      | TLParen :: ts' =>
          match parse_sum f ts' with
          | Some (e, TRParen :: rest) => Some (e, rest)
          | _ => None
          end
      | _ => None
      end
  end.

Definition parse_fuel : nat := 1000.

Definition parse_tokens (ts : list token) : option expr :=
  match parse_sum parse_fuel ts with
  | Some (e, []) => Some e
  | _ => None
  end.

(** The syntax tree of an expression of this fragment. *)
Definition parse_expression (expression : string) : option expr :=
  match tokenize None expression with
  | Some ts => parse_tokens ts
  | None => None
  end.

(** [-v]: a float changes its sign bit. *)
Definition negate (v : num) : num :=
  match v with
  | NInt z => NInt (- z)
  | NFloat bits => NFloat (Z.lxor bits (2 ^ 63))
  end.

(** Expressions longer than this are left to the host, where the
    interpreter's limits on nesting and on integer digits apply. *)
Definition short_expression : nat := 100.

(** ** The server *)

Section Server.

Context (host : Host).

(** [str(v)], as an f-string renders a value. *)
Definition py_str (v : json) : string :=
  match v with
  | JNull => "None"
  | JBool true => "True"
  | JBool false => "False"
  | JInt z => str_of_Z z
  | JStr s => s
  | _ => host_repr host v
  end.

(** One binary operation: sums, differences and products of ints are
    exact; a true division, and any operation on a float, is the host's
    floating-point arithmetic (which raises on a zero divisor or on an int
    too large for a float). *)
Definition apply_binop (op : binop) (x y : num) : result num :=
  match op, x, y with
  | Add, NInt a, NInt b => Return (NInt (a + b))
  | Sub, NInt a, NInt b => Return (NInt (a - b))
  | Mult, NInt a, NInt b => Return (NInt (a * b))
  | _, _, _ => float_arith host op x y
  end.

(** The value of a syntax tree: the left operand first, then the right
    one, then the operation. *)
Fixpoint eval_expr (e : expr) : result num :=
  match e with
  | Constant n => Return (NInt n)
  | UAdd a => eval_expr a
  | USub a =>
      match eval_expr a with
      | Return v => Return (negate v)
      | Raise e => Raise e
      end
  | BinOp l op r =>
      match eval_expr l with
      | Return x =>
          match eval_expr r with
          | Return y => apply_binop op x y
          | Raise e => Raise e
          end
      | Raise e => Raise e
      end
  end.

(** [str(v)] of a number. *)
Definition str_num (v : num) : string :=
  match v with
  | NInt z => str_of_Z z
  | NFloat bits => host_repr host (JFloat bits)
  end.

(** [eval(expression)] rendered by the f-string.  A short expression made
    of decimal integers, blanks, parentheses and the operators [+ - * /] is
    parsed and evaluated here; everything else (a decimal point, [**],
    [//], other white space, a long expression, a syntax error) is the
    host's. *)
Definition py_eval (expression : string) : result string :=
  if (String.length expression <=? short_expression)%nat
  then match parse_expression expression with
       | Some e =>
           match eval_expr e with
           | Return v => Return (str_num v)
           | Raise err => Raise err
           end
       | None => host_eval host expression
       end
  else host_eval host expression.

Definition datetime_now : M datetime :=
  fun w => (Return (clock host (ticks w)), mkWorld (fs w) (S (ticks w)) (trace w) (io w)).

(** *** text_transform *)

Definition str_method (name : string) (ascii_case unicode_case : string -> string)
    (text : json) : result json :=
  match text with
  | JStr s => Return (JStr (if is_ascii s then ascii_case s else unicode_case s))
  | _ => Raise (no_attribute text name)
  end.

Definition py_upper := str_method "upper" (string_map upper_char) (unicode_upper host).
Definition py_lower := str_method "lower" (string_map lower_char) (unicode_lower host).
Definition py_capitalize := str_method "capitalize" capitalize_ascii (unicode_capitalize host).
Definition py_title := str_method "title" (title_from false) (unicode_title host).

(** [text[::-1]]; a dict has no slices, and what the subscript raises
    depends on the version of the interpreter. *)
Definition py_reverse (text : json) : result json :=
  match text with
  | JStr s => Return (JStr (str_reverse s))
  | JList items => Return (JList (rev items))
  | JDict _ => Raise (dict_slice_error host)
  | _ => Raise (mkExn TypeError ("'" +:+ type_name text +:+ "' object is not subscriptable"))
  end.

(** [f"Word count: {len(text.split())}"] *)
Definition count_words (text : json) : result json :=
  match text with
  | JStr s => Return (JStr ("Word count: " +:+ str_of_nat (count_tokens false s)))
  | _ => Raise (no_attribute text "split")
  end.

(** [f"Character count: {len(text)} (including spaces),
      {len(text.replace(' ', ''))} (excluding spaces)"] *)
Definition count_chars (text : json) : result json :=
  match text with
  | JStr s =>
      Return (JStr ("Character count: " +:+ str_of_nat (String.length s)
                    +:+ " (including spaces), "
                    +:+ str_of_nat (String.length (remove_spaces s))
                    +:+ " (excluding spaces)"))
  | JList _ | JDict _ => Raise (no_attribute text "replace")
  | _ => Raise (mkExn TypeError ("object of type '" +:+ type_name text +:+ "' has no len()"))
  end.

Definition text_transform (arguments : json) : M json :=
  text <- lift (py_get arguments "text" (JStr "")) ;;
  operation <- lift (py_get arguments "operation" (JStr "")) ;;
  match
    (if eq_str operation "uppercase" then Some (py_upper text)
     else if eq_str operation "lowercase" then Some (py_lower text)
     else if eq_str operation "reverse" then Some (py_reverse text)
     else if eq_str operation "capitalize" then Some (py_capitalize text)
     else if eq_str operation "title" then Some (py_title text)
     else if eq_str operation "count_words" then Some (count_words text)
     else if eq_str operation "count_chars" then Some (count_chars text)
     else None)
  with
  | Some computed => result <- lift computed ;; ret (success result)
  | None => ret (failure ("Unknown operation: " +:+ py_str operation))
  end.

(** *** calculate *)

Definition invalid_expression : string :=
  "Invalid expression: only numbers and basic operators (+, -, *, /, parentheses) are allowed".

Definition calculate (arguments : json) : M json :=
  expression <- lift (py_get arguments "expression" (JStr "")) ;;
  matched <- lift (re_match_expression expression) ;;
  if negb matched
  then ret (failure invalid_expression)
  else
    try_except
      (result <- lift (py_eval (py_str expression)) ;;
       ret (success (JStr (py_str expression +:+ " = " +:+ result))))
      (fun e =>
         ret (failure ("Error calculating '" +:+ py_str expression +:+ "': " +:+ exn_msg e))).

(** *** system_info *)

Definition system_info (arguments : json) : M json :=
  info_type <- lift (py_get arguments "info_type" (JStr "")) ;;
  try_except
    (match
       (if eq_str info_type "platform" then
          Some (system <- lift (platform_system host) ;;
                release <- lift (platform_release host) ;;
                machine <- lift (platform_machine host) ;;
                processor <- lift (platform_processor host) ;;
                ret ("Platform: " +:+ system +:+ " " +:+ release +:+ nl
                     +:+ "Architecture: " +:+ machine +:+ nl
                     +:+ "Processor: " +:+ processor))
        else if eq_str info_type "cpu" then
          Some (count <- lift (os_cpu_count host) ;;
                processor <- lift (platform_processor host) ;;
                ret ("CPU Count: "
                     +:+ match count with Some n => str_of_Z n | None => "None" end
                     +:+ nl +:+ "Processor: " +:+ processor))
        else if eq_str info_type "memory" then
          Some (ret "Memory information requires psutil library")
        else if eq_str info_type "disk" then
          Some (cwd <- lift (os_getcwd host) ;;
                home <- lift (os_expanduser_home host) ;;
                ret ("Current directory: " +:+ cwd +:+ nl +:+ "Home directory: " +:+ home))
        else if eq_str info_type "network" then
          Some (node_name <- lift (platform_node host) ;;
                ret ("Hostname: " +:+ node_name))
        else if eq_str info_type "processes" then
          Some (ret "Process information requires psutil library")
        else if eq_str info_type "uptime" then
          Some (now <- datetime_now ;;
                ret ("Python started at: " +:+ isoformat now))
        else None)
     with
     | Some compute => info <- compute ;; ret (success (JStr info))
     | None => ret (failure ("Unknown info type: " +:+ py_str info_type))
     end)
    (fun e => ret (failure ("Error getting system info: " +:+ exn_msg e))).

(** *** file_operations *)

Definition os_path_isdir (path : json) : M bool :=
  fun w =>
    match path with
    | JStr p => (Return (match fs w !! p with Some Dir => true | _ => false end), w)
    | _ => (isdir_other host path, w)
    end.

Definition os_path_isfile (path : json) : M bool :=
  fun w =>
    match path with
    | JStr p => (Return (match fs w !! p with Some (File _) => true | _ => false end), w)
    | _ => (isfile_other host path, w)
    end.

Definition os_path_exists (path : json) : M bool :=
  fun w =>
    match path with
    | JStr p => (Return (match fs w !! p with Some _ => true | None => false end), w)
    | _ => (exists_other host path, w)
    end.

Definition listdir (path : json) : M (list string) :=
  fun w =>
    match path with
    | JStr p => (os_listdir host (fs w) p, w)
    | _ => (listdir_other host path, w)
    end.

(** Bytes of the UTF-8 encoding of a text of code points below 256. *)
Fixpoint utf8_length (s : string) : Z :=
  match s with
  | EmptyString => 0
  | String c s' => (if is_ascii_char c then 1 else 2) + utf8_length s'
  end.

Definition os_path_getsize (path : json) : M Z :=
  fun w =>
    match path with
    | JStr p =>
        match fs w !! p with
        | Some (File data) => (Return (utf8_length data), w)
        | _ => (stat_size host p, w)
        end
    | _ => (getsize_other host path, w)
    end.

Definition set_fs (files : gmap string node) (w : world) : world :=
  mkWorld files (ticks w) (trace w) (io w).

(** Text written in text mode: each line feed becomes [os.linesep]. *)
Fixpoint write_translate (sep : linesep) (s : string) : string :=
  match s with
  | EmptyString => EmptyString
  | String c s' =>
      if (code c =? 10)%N
      then match sep with
           | SepLF => String LF (write_translate sep s')
           | SepCRLF => String CR (String LF (write_translate sep s'))
           end
      else String c (write_translate sep s')
  end.

(** Text read in text mode with universal newlines: CR LF and a lone CR
    become a line feed. *)
Fixpoint read_translate (s : string) : string :=
  match s with
  | EmptyString => EmptyString
  | String c s' =>
      if (code c =? 13)%N
      then match s' with
           | String c' s'' =>
               if (code c' =? 10)%N then String LF (read_translate s'')
               else String LF (read_translate s')
           | EmptyString => String LF EmptyString
           end
      else String c (read_translate s')
  end.

Definition set_io (s : streams) (w : world) : world :=
  mkWorld (fs w) (ticks w) (trace w) s.

(** Reading through a file descriptor or from a device. *)
Definition read_device (path : json) : M string :=
  fun w => let (r, s) := read_other host path (io w) in (r, set_io s w).

(** [with open(path, 'r', encoding='utf-8') as f: f.read()] *)
Definition read_file (path : json) : M string :=
  fun w =>
    match path with
    | JStr p =>
        match open_r_fault host p with
        | Some e => (Raise e, w)
        | None =>
            match fs w !! p with
            | Some (File data) => (Return (read_translate data), w)
            | Some Special => read_device path w
            | Some Dir =>
                (Raise (mkExn OSError ("[Errno 21] Is a directory: " +:+ host_repr host path)), w)
            | None =>
                (Raise (mkExn OSError
                          ("[Errno 2] No such file or directory: " +:+ host_repr host path)), w)
            end
        end
    | _ => read_device path w
    end.

(** The name of the type of a value in the message of a built-in that
    rejects its argument. *)
Definition argument_type (v : json) : string :=
  match v with
  | JNull => "None"
  | _ => type_name v
  end.

(** Writing through a file descriptor or to a device. *)
Definition write_device (path content : json) : M unit :=
  fun w =>
    let '(r, files, s) := write_other host path content (fs w) (io w) in
    (r, mkWorld files (ticks w) (trace w) s).

(** [with open(path, 'w', encoding='utf-8') as f: f.write(content)]:
    opening creates or truncates the file before anything is written, and
    the write or the closing of the file may still fail. *)
Definition write_file (path content : json) : M unit :=
  fun w =>
    match path with
    | JStr p =>
        match open_w_fault host p with
        | Some e => (Raise e, w)
        | None =>
            match fs w !! p with
            | Some Dir =>
                (Raise (mkExn OSError ("[Errno 21] Is a directory: " +:+ host_repr host path)), w)
            | Some Special => write_device path content w
            | _ =>
                match content with
                | JStr text =>
                    match write_fault host p text with
                    | Some (e, remains) => (Raise e, set_fs (<[p := File remains]> (fs w)) w)
                    | None =>
                        (Return tt,
                         set_fs (<[p := File (write_translate (os_linesep host) text)]> (fs w)) w)
                    end
                | _ =>
                    (Raise (mkExn TypeError
                              ("write() argument must be str, not " +:+ argument_type content)),
                     set_fs (<[p := File ""]> (fs w)) w)
                end
            end
        end
    | _ => write_device path content w
    end.

Definition file_operations (arguments : json) : M json :=
  operation <- lift (py_get arguments "operation" (JStr "")) ;;
  path <- lift (py_get arguments "path" (JStr "")) ;;
  content <- lift (py_get arguments "content" (JStr "")) ;;
  try_except
    (match
       (if eq_str operation "list" then
          Some (is_dir <- os_path_isdir path ;;
                if is_dir
                then items <- listdir path ;;
                     ret ("Contents of " +:+ py_str path +:+ ":" +:+ nl +:+ join nl items)
                else ret ("Path " +:+ py_str path +:+ " is not a directory"))
        else if eq_str operation "read" then
          Some (is_file <- os_path_isfile path ;;
                if is_file
                then data <- read_file path ;;
                     ret ("Contents of " +:+ py_str path +:+ ":" +:+ nl +:+ data)
                else ret ("File " +:+ py_str path +:+ " not found"))
        else if eq_str operation "write" then
          Some (x <- write_file path content ;;
                ret ("Successfully wrote to " +:+ py_str path))
        else if eq_str operation "exists" then
          Some (found <- os_path_exists path ;;
                ret ("Path " +:+ py_str path +:+ " "
                     +:+ (if found then "exists" else "does not exist")))
        else if eq_str operation "size" then
          Some (found <- os_path_exists path ;;
                if found
                then size <- os_path_getsize path ;;
                     ret ("Size of " +:+ py_str path +:+ ": " +:+ str_of_Z size +:+ " bytes")
                else ret ("Path " +:+ py_str path +:+ " does not exist"))
        else None)
     with
     | Some compute => result <- compute ;; ret (success (JStr result))
     | None => ret (failure ("Unknown operation: " +:+ py_str operation))
     end)
    (fun e => ret (failure ("Error with file operation: " +:+ exn_msg e))).

(** *** current_time *)

(** [now.strftime(fmt)] for an arbitrary value [fmt]. *)
Definition py_strftime (now : datetime) (fmt : json) : result string :=
  match fmt with
  | JStr s => strftime host now s
  | _ => Raise (mkExn TypeError
                  ("strftime() argument 1 must be str, not " +:+ type_name fmt))
  end.

Definition current_time (arguments : json) : M json :=
  format_type <- lift (py_get arguments "format" (JStr "iso")) ;;
  custom_format <- lift (py_get arguments "custom_format" (JStr "")) ;;
  try_except
    (now <- datetime_now ;;
     match
       (if eq_str format_type "iso" then Some (Return (isoformat now))
        else if eq_str format_type "human" then
          Some (strftime host now "%A, %B %d, %Y at %I:%M %p")
        else if eq_str format_type "timestamp" then
          Some (match timestamp host now with
                | Return seconds => Return (str_of_Z seconds)
                | Raise e => Raise e
                end)
        else if eq_str format_type "custom" then
          Some (if truthy custom_format
                then py_strftime now custom_format
                else Return "Custom format string required for custom format type")
        else None)
     with
     | Some computed =>
         result <- lift computed ;; ret (success (JStr ("Current time: " +:+ result)))
     | None => ret (failure ("Unknown format type: " +:+ py_str format_type))
     end)
    (fun e => ret (failure ("Error getting time: " +:+ exn_msg e))).

(** *** The dispatcher *)

Definition call_tool (tool_name arguments : json) : M json :=
  x <- log (EvCallTool tool_name arguments) ;;
  try_except
    (if eq_str tool_name "text_transform" then text_transform arguments
     else if eq_str tool_name "calculate" then calculate arguments
     else if eq_str tool_name "system_info" then system_info arguments
     else if eq_str tool_name "file_operations" then file_operations arguments
     else if eq_str tool_name "current_time" then current_time arguments
     else ret (failure ("Tool not implemented: " +:+ py_str tool_name)))
    (fun e =>
       ret (failure ("Error executing tool " +:+ py_str tool_name +:+ ": " +:+ exn_msg e))).

Definition handle_request (request : json) : M json :=
  x <- log (EvDispatch request) ;;
  method <- lift (py_get request "method" JNull) ;;
  params <- lift (py_get request "params" (JDict [])) ;;
  if eq_str method "tools/list" then
    ret (JDict [("tools", JList (map snd tools))])
  else if eq_str method "tools/call" then
    tool_name <- lift (py_get params "name" JNull) ;;
    arguments <- lift (py_get params "arguments" (JDict [])) ;;
    registered <- lift (tools_contains tool_name) ;;
    if registered
    then call_tool tool_name arguments
    else ret (failure ("Unknown tool: " +:+ py_str tool_name))
  else
    ret (failure ("Unknown method: " +:+ py_str method)).

(** *** The transport loop *)

Definition set_stdin (rest : list (result string)) (s : streams) : streams :=
  mkStreams rest (stdin_closed s) (stdout s) (stdout_closed s).

Definition put (item : output) (s : streams) : streams :=
  mkStreams (stdin s) (stdin_closed s) (stdout s ++ [item]) (stdout_closed s).

(** [sys.stdin.readline()]: the next line, the empty string at the end of
    the stream, or an exception. *)
Definition readline : M string :=
  fun w =>
    match stdin_closed (io w) with
    | Some e => (Raise e, w)
    | None =>
        match stdin (io w) with
        | [] => (Return "", w)
        | next :: rest => (next, set_io (set_stdin rest (io w)) w)
        end
    end.

(** [print(json.dumps(response), flush=True)]: one line per response. *)
Definition print (response : json) : M unit :=
  fun w =>
    match stdout_closed (io w) with
    | Some e => (Raise e, w)
    | None => (Return tt, set_io (put (Printed response) (io w)) w)
    end.

(** The response of the two [except] clauses of the loop. *)
Definition run_except (e : exn) : json :=
  match exn_kind e with
  | JSONDecodeError => failure "Invalid JSON request"
  | _ => failure ("Server error: " +:+ exn_msg e)
  end.

(** One pass through the body of [while True]: [Return false] is [break],
    and [Raise] an exception that leaves the loop, which only the [print]
    of an [except] clause can raise. *)
Definition run_iteration : M bool :=
  try_except
    (line <- readline ;;
     if String.eqb line ""
     then ret false
     else
       request <- lift (json_loads host (py_strip line)) ;;
       response <- handle_request request ;;
       x <- print response ;;
       ret true)
    (fun e => x <- print (run_except e) ;; ret true).

(** The loop, for a bounded number of passes: [None] when the passes did
    not suffice, [Raise] when an exception left the loop. *)
Fixpoint run_loop (fuel : nat) (w : world) : option (result unit * world) :=
  match fuel with
  | O => None
  | S f =>
      match run_iteration w with
      | (Return true, w') => run_loop f w'
      | (Return false, w') => Some (Return tt, w')
      | (Raise e, w') => Some (Raise e, w')
      end
  end.

(** One pass for each line of the input and one for its end. *)
Definition run (w : world) : option (result unit * world) :=
  run_loop (S (length (stdin (io w)))) w.

End Server.

(** ** Reading responses and the registry *)

Fixpoint json_path (v : json) (path : list string) : option json :=
  match path with
  | [] => Some v
  | key :: rest =>
      match v with
      | JDict d =>
          match dict_get d key with
          | Some x => json_path x rest
          | None => None
          end
      | _ => None
      end
  end.

(** A list stored in the descriptor of a tool. *)
Definition schema_list (tool : string) (path : list string) : list json :=
  match dict_get tools tool with
  | Some d =>
      match json_path d path with
      | Some (JList items) => items
      | _ => []
      end
  | None => []
  end.

Definition required_arguments (tool : string) : list json :=
  schema_list tool ["inputSchema"; "required"].

Definition allowed_values (tool property : string) : list json :=
  schema_list tool ["inputSchema"; "properties"; property; "enum"].

Definition descriptor_name (d : json) : option json := json_path d ["name"].

(** [isError] is present and true. *)
Definition is_error (response : json) : bool :=
  match json_path response ["isError"] with
  | Some (JBool true) => true
  | _ => false
  end.

(** The uniform response: a dict whose first key is [content], bound to a
    non-empty list of text items, followed by nothing or by [isError: True]. *)
Definition uniform (response : json) : Prop :=
  exists items flag,
    response = JDict (("content", JList items) :: flag)
    /\ items <> []
    /\ Forall (fun item => exists text, item = text_item text) items
    /\ (flag = [] \/ flag = [("isError", JBool true)]).

(** ** A concrete host and world, for the examples *)

Definition quote : string := String "034" "".
Definition quoted (s : string) : string := quote +:+ s +:+ quote.

(** A request that writes through descriptor 1, and its text. *)
Definition descriptor_write_call : json :=
  JDict [("method", JStr "tools/call");
         ("params",
          JDict [("name", JStr "file_operations");
                 ("arguments",
                  JDict [("operation", JStr "write"); ("path", JInt 1);
                         ("content", JStr "x")])])].

Definition descriptor_write_text : string :=
  "{" +:+ quoted "method" +:+ ": " +:+ quoted "tools/call" +:+ ", "
  +:+ quoted "params" +:+ ": {" +:+ quoted "name" +:+ ": " +:+ quoted "file_operations"
  +:+ ", " +:+ quoted "arguments" +:+ ": {" +:+ quoted "operation" +:+ ": "
  +:+ quoted "write" +:+ ", " +:+ quoted "path" +:+ ": 1, " +:+ quoted "content"
  +:+ ": " +:+ quoted "x" +:+ "}}}".

(** The float that [json.loads] returns for the text [NaN]. *)
Definition float_nan : Z := 9221120237041090560.

(** The parser of the examples: a table of the texts they use; like
    [json.loads] it accepts [NaN]. *)
Definition sample_json_loads (s : string) : result json :=
  if String.eqb s "null" then Return JNull
  else if String.eqb s "true" then Return (JBool true)
  else if String.eqb s "false" then Return (JBool false)
  else if String.eqb s "[]" then Return (JList [])
  else if String.eqb s "{}" then Return (JDict [])
  else if String.eqb s "NaN" then Return (JFloat float_nan)
  else if String.eqb s descriptor_write_text then Return descriptor_write_call
  else Raise (mkExn JSONDecodeError "Expecting value: line 1 column 1 (char 0)").

Definition sample_eval (s : string) : result string :=
  if String.eqb s "1.5" then Return "1.5"
  else Raise (mkExn HostError "invalid syntax").

Definition sample_repr (v : json) : string :=
  match v with
  | JStr s => "'" +:+ s +:+ "'"
  | JFloat 4611686018427387904 => "2.0"
  | JFloat 4607182418800017408 => "1.0"
  | JFloat 9221120237041090560 => "nan"
  | _ => "..."
  end.

Definition bad_path {A} (v : json) : result A :=
  Raise (mkExn TypeError ("expected str, bytes or os.PathLike object, not " +:+ type_name v)).

(** Floats of the examples: 2.0 and 1.0, the quotients 8 / 4 and 2.0 / 2. *)
Definition float_two : Z := 4611686018427387904.
Definition float_one : Z := 4607182418800017408.

Definition sample_float_arith (op : binop) (x y : num) : result num :=
  match op, x, y with
  | Div, NInt 8, NInt 4 => Return (NFloat float_two)
  | Div, NFloat 4611686018427387904, NInt 2 => Return (NFloat float_one)
  | Div, _, NInt 0 => Raise (mkExn ZeroDivisionError "division by zero")
  | _, _, _ => Raise (mkExn HostError "not in the table of the example")
  end.

(** A volume without free space: the file is created, nothing is stored. *)
Definition full_volume_path : string := "/mnt/full/notes.txt".

Definition sample_write_fault (path text : string) : option (exn * string) :=
  if String.eqb path full_volume_path
  then Some (mkExn OSError "[Errno 28] No space left on device", "")
  else None.

Definition bad_descriptor : exn := mkExn OSError "[Errno 9] Bad file descriptor".

(** Writing through descriptor 1: the text reaches standard output, and
    the descriptor is closed when the with block is left. *)
Definition sample_write_other (path content : json) (files : gmap string node)
    (s : streams) : result unit * gmap string node * streams :=
  match path, content, stdout_closed s with
  | JInt 1, JStr text, None =>
      (Return tt, files,
       mkStreams (stdin s) (stdin_closed s) (stdout s ++ [Written text])
         (Some bad_descriptor))
  | JInt 1, _, Some e => (Raise e, files, s)
  | _, _, _ => (bad_path path, files, s)
  end.

Definition sample_host : Host := {|
  json_loads := sample_json_loads;
  host_repr := sample_repr;
  host_eval := sample_eval;
  float_arith := sample_float_arith;
  dict_slice_error := mkExn KeyError "slice(None, None, -1)";
  unicode_upper := fun s => s;
  unicode_lower := fun s => s;
  unicode_capitalize := fun s => s;
  unicode_title := fun s => s;
  platform_system := Return "Linux";
  platform_release := Return "6.1.0";
  platform_machine := Return "x86_64";
  platform_processor := Return "";
  platform_node := Return "localhost";
  os_cpu_count := Return (Some 4);
  os_getcwd := Return "/srv";
  os_expanduser_home := Return "/root";
  os_linesep := SepLF;
  clock := fun n => mkDatetime 2024 1 15 10 30 (n mod 60) 0;
  strftime := fun _ fmt => Return fmt;
  timestamp := fun _ => Return 1705314600;
  open_r_fault := fun _ => None;
  open_w_fault := fun _ => None;
  write_fault := sample_write_fault;
  os_listdir := fun _ _ => Return [];
  stat_size := fun _ => Return 4096;
  isdir_other := bad_path;
  isfile_other := bad_path;
  exists_other := bad_path;
  getsize_other := bad_path;
  listdir_other := bad_path;
  read_other := fun path s => (bad_path path, s);
  write_other := sample_write_other
|}.

Definition idle : streams := mkStreams [] None [] None.

Definition empty_world : world := mkWorld ∅ 0 [] idle.

(** The world with the given lines on standard input. *)
Definition reading (lines : list string) (w : world) : world :=
  set_io (set_stdin (map Return lines) (io w)) w.

(** A world whose current directory ["."] is listed as a directory. *)
Definition dir_world : world := mkWorld (<["." := Dir]> ∅) 0 [] idle.

(** A call of [calculate], a call whose [params] is a list, a call of
    [current_time] that asks for a custom format without giving one, lines
    of input, and the exception the sample parser raises on a malformed
    line. *)
Definition sample_call : json :=
  JDict [("method", JStr "tools/call");
         ("params", JDict [("name", JStr "calculate");
                           ("arguments", JDict [("expression", JStr "2 + 3 * 4")])])].

Definition params_list_call : json :=
  JDict [("method", JStr "tools/call"); ("params", JList [])].

Definition custom_call : json :=
  JDict [("method", JStr "tools/call");
         ("params", JDict [("name", JStr "current_time");
                           ("arguments", JDict [("format", JStr "custom")])])].

Definition sample_lines : list string := ["{not json" +:+ nl; "{}" +:+ nl].

Definition nan_line : string := "NaN" +:+ nl.

Definition descriptor_input : list string := [descriptor_write_text +:+ nl; "{}" +:+ nl].

Definition sample_decode_error : exn :=
  mkExn JSONDecodeError "Expecting value: line 1 column 1 (char 0)".

(** ** Vocabulary of the statements *)

(** *** Requests and arguments *)

(** The request is a mapping whose method is [tools/list]. *)
Definition tools_list_request (d : list (string * json)) : Prop :=
  dict_get d "method" = Some (JStr "tools/list").

(** The request names no tool: [params] is missing, or has no [name]. *)
Definition names_no_tool (d : list (string * json)) : Prop :=
  dict_get d "params" = None
  \/ exists p, dict_get d "params" = Some (JDict p) /\ dict_get p "name" = None.

Definition transform_arguments (text operation : string) : json :=
  JDict [("text", JStr text); ("operation", JStr operation)].

Definition expression_arguments (expression : string) : json :=
  JDict [("expression", JStr expression)].

Definition write_arguments (path content : string) : json :=
  JDict [("operation", JStr "write"); ("path", JStr path); ("content", JStr content)].

Definition read_arguments (path : string) : json :=
  JDict [("operation", JStr "read"); ("path", JStr path)].

(** The value a handler reads from its arguments. *)
Definition argument (arguments : json) (key : string) (default : json) : json :=
  match py_get arguments key default with
  | Return v => v
  | Raise _ => default
  end.

Definition request_method (request : json) : json := argument request "method" JNull.
Definition request_params (request : json) : json := argument request "params" (JDict []).
Definition request_tool (request : json) : json :=
  argument (request_params request) "name" JNull.
Definition request_arguments (request : json) : json :=
  argument (request_params request) "arguments" (JDict []).

Definition is_mapping (v : json) : bool :=
  match v with
  | JDict _ => true
  | _ => false
  end.

Definition hashable (v : json) : bool :=
  match v with
  | JList _ | JDict _ => false
  | _ => true
  end.

(** A request the dispatcher answers: a mapping, and when its method is
    [tools/call], its [params] is a mapping and its tool name is a value
    that can be looked up.  On a [malformed] request the dispatcher
    raises. *)
Definition well_formed (request : json) : Prop :=
  is_mapping request = true
  /\ (request_method request = JStr "tools/call" ->
      is_mapping (request_params request) = true
      /\ hashable (request_tool request) = true).

Definition malformed (request : json) : Prop :=
  is_mapping request = false
  \/ (request_method request = JStr "tools/call"
      /\ (is_mapping (request_params request) = false
          \/ hashable (request_tool request) = false)).

(** The request asks [current_time] for a custom format and gives no
    format string: what the specification lists among the validation errors
    as a missing format string. *)
Definition missing_format_string (request : json) : Prop :=
  request_method request = JStr "tools/call"
  /\ request_tool request = JStr "current_time"
  /\ argument (request_arguments request) "format" (JStr "iso") = JStr "custom"
  /\ truthy (argument (request_arguments request) "custom_format" (JStr "")) = false.

(** The request asks [file_operations] to write a str to a str path. *)
Definition writes (request : json) (path content : string) : Prop :=
  request_method request = JStr "tools/call"
  /\ request_tool request = JStr "file_operations"
  /\ argument (request_arguments request) "operation" (JStr "") = JStr "write"
  /\ argument (request_arguments request) "path" (JStr "") = JStr path
  /\ argument (request_arguments request) "content" (JStr "") = JStr content.

(** The file a completed write leaves behind. *)
Definition stored (host : Host) (content : string) : node :=
  File (write_translate (os_linesep host) content).

(** *** JSON texts *)

(** The grammar of RFC 8259, for text of code points below 256: a value
    between optional white space, where a value is a string, a number, an
    array, an object or one of [true], [false], [null]. *)

(** White space of the grammar: space, tab, line feed, carriage return. *)
Definition json_space (c : ascii) : bool :=
  (code c =? 32)%N || (code c =? 9)%N || (code c =? 10)%N || (code c =? 13)%N.

Fixpoint skip_spaces (s : string) : string :=
  match s with
  | EmptyString => EmptyString
  | String c s' => if json_space c then skip_spaces s' else s
  end.

Fixpoint skip_digits (s : string) : string :=
  match s with
  | EmptyString => EmptyString
  | String c s' => if is_digit c then skip_digits s' else s
  end.

(** One or more digits. *)
Definition some_digits (s : string) : option string :=
  match s with
  | EmptyString => None
  | String c s' => if is_digit c then Some (skip_digits s') else None
  end.

Fixpoint strip_prefix (prefix s : string) : option string :=
  match prefix with
  | EmptyString => Some s
  | String a prefix' =>
      match s with
      | EmptyString => None
      | String b s' => if Ascii.eqb a b then strip_prefix prefix' s' else None
      end
  end.

Definition is_hex (c : ascii) : bool :=
  is_digit c || in_range 65 70 c || in_range 97 102 c.

(** The characters that may follow a backslash, [u] apart. *)
Definition is_escape (c : ascii) : bool :=
  (code c =? 34)%N || (code c =? 92)%N || (code c =? 47)%N || (code c =? 98)%N
  || (code c =? 102)%N || (code c =? 110)%N || (code c =? 114)%N || (code c =? 116)%N.

(** A string after its opening quote: what follows the closing quote. *)
Fixpoint string_body (s : string) : option string :=
  match s with
  | EmptyString => None
  | String c s' =>
      if (code c =? 34)%N then Some s'
      else if (code c =? 92)%N then
        match s' with
        | EmptyString => None
        | String e s'' =>
            if is_escape e then string_body s''
            else if (code e =? 117)%N then
              match s'' with
              | String h1 (String h2 (String h3 (String h4 t))) =>
                  if is_hex h1 && is_hex h2 && is_hex h3 && is_hex h4
                  then string_body t
                  else None
              | _ => None
              end
            else None
        end
      else if (code c <? 32)%N then None
      else string_body s'
  end.

(** A number: [-]int[frac][exp], where int is 0 or starts with 1..9. *)
Definition number_int (s : string) : option string :=
  match s with
  | EmptyString => None
  | String c s' =>
      if (code c =? 48)%N then Some s'
      else if in_range 49 57 c then Some (skip_digits s')
      else None
  end.

Definition number_frac (s : string) : option string :=
  match s with
  | String c s' => if (code c =? 46)%N then some_digits s' else Some s
  | EmptyString => Some s
  end.

Definition number_exp (s : string) : option string :=
  match s with
  | String c s' =>
      if (code c =? 101)%N || (code c =? 69)%N
      then match s' with
           | String sign s'' =>
               if (code sign =? 43)%N || (code sign =? 45)%N
               then some_digits s''
               else some_digits s'
           | EmptyString => None
           end
      else Some s
  | EmptyString => Some s
  end.

Definition number (s : string) : option string :=
  let unsigned :=
    match s with
    | String c s' => if (code c =? 45)%N then s' else s
    | EmptyString => s
    end in
  match number_int unsigned with
  | Some s1 =>
      match number_frac s1 with
      | Some s2 => number_exp s2
      | None => None
      end
  | None => None
  end.

(** A value at the start of the text: what follows it. *)
Fixpoint value (fuel : nat) (s : string) : option string :=
  match fuel with
  | O => None
  | S f =>
      match s with
      | EmptyString => None
      | String c s' =>
          if (code c =? 34)%N then string_body s'
          else if (code c =? 91)%N then
            match skip_spaces s' with
            | String c' rest =>
                if (code c' =? 93)%N then Some rest else elements f (String c' rest)
            | EmptyString => None
            end
          else if (code c =? 123)%N then
            match skip_spaces s' with
            | String c' rest =>
                if (code c' =? 125)%N then Some rest else members f (String c' rest)
            | EmptyString => None
            end
          else if (code c =? 116)%N then strip_prefix "true" s
          else if (code c =? 102)%N then strip_prefix "false" s
          else if (code c =? 110)%N then strip_prefix "null" s
          else number s
      end
  end
with elements (fuel : nat) (s : string) : option string :=
  match fuel with
  | O => None
  | S f =>
      match value f s with
      | Some rest =>
          match skip_spaces rest with
          | String c rest' =>
              if (code c =? 44)%N then elements f (skip_spaces rest')
              else if (code c =? 93)%N then Some rest'
              else None
          | EmptyString => None
          end
      | None => None
      end
  end
with members (fuel : nat) (s : string) : option string :=
  match fuel with
  | O => None
  | S f =>
      match s with
      | String q s' =>
          if (code q =? 34)%N then
            match string_body s' with
            | Some rest =>
                match skip_spaces rest with
                | String colon rest' =>
                    if (code colon =? 58)%N then
                      match value f (skip_spaces rest') with
                      | Some rest2 =>
                          match skip_spaces rest2 with
                          | String c rest3 =>
                              if (code c =? 44)%N then members f (skip_spaces rest3)
                              else if (code c =? 125)%N then Some rest3
                              else None
                          | EmptyString => None
                          end
                      | None => None
                      end
                    else None
                | EmptyString => None
                end
            | None => None
            end
          else None
      | EmptyString => None
      end
  end.

(** A JSON text: one value between optional white space. *)
Definition valid_json (s : string) : bool :=
  match value (2 * String.length s + 2) (skip_spaces s) with
  | Some rest => String.eqb (skip_spaces rest) ""
  | None => false
  end.


(** *** Text and arithmetic *)

(** Text without upper-case letters is what [lower] leaves unchanged. *)
Definition already_lowercase (s : string) : bool :=
  string_forallb (fun c => negb (is_upper c)) s.

(** The character occurs in the text. *)
Definition occurs (c : ascii) (s : string) : Prop := In c (list_ascii_of_string s).

(** The characters the specification lists: digits, white space,
    parentheses and the four operators. *)
Definition listed_char (c : ascii) : bool :=
  is_digit c || is_space c
  || (code c =? 40)%N || (code c =? 41)%N
  || (code c =? 43)%N || (code c =? 45)%N || (code c =? 42)%N || (code c =? 47)%N.

Definition is_point (c : ascii) : bool := (code c =? 46)%N.

(** The token of a binary operator and its level in the grammar. *)
Definition operator (op : binop) : token :=
  match op with
  | Add => TPlus
  | Sub => TMinus
  | Mult => TStar
  | Div => TSlash
  end.

Definition precedence (op : binop) : nat :=
  match op with
  | Add | Sub => 1
  | Mult | Div => 2
  end.

(** A decimal literal of the language: digits, without a leading zero
    unless it is the digit zero alone; and the number it denotes. *)
Definition is_literal (s : string) : bool :=
  match s with
  | EmptyString => false
  | String "0" (String _ _) => false
  | _ => string_forallb is_digit s
  end.

Definition literal_value (s : string) : Z := digits_value 0 s.

Definition symbol_of (op : binop) : string :=
  match op with
  | Add => "+"
  | Sub => "-"
  | Mult => "*"
  | Div => "/"
  end.

(** An expression without parentheses: a first literal, then operators
    each followed by a literal. *)
Definition chain : Type := list (binop * string).

Fixpoint chain_text (rest : chain) : string :=
  match rest with
  | [] => ""
  | (op, literal) :: rest' =>
      " " +:+ symbol_of op +:+ " " +:+ literal +:+ chain_text rest'
  end.

Definition chain_expression (first : string) (rest : chain) : string :=
  first +:+ chain_text rest.

Definition chain_literals (first : string) (rest : chain) : bool :=
  is_literal first && forallb (fun item => is_literal (snd item)) rest.

(** The usual reading of such an expression: [* /] extend the term on
    their left, [+ -] close it and extend the sum on their left. *)
Fixpoint group (sum : expr -> expr) (term : expr) (rest : chain) : expr :=
  match rest with
  | [] => sum term
  | (op, literal) :: rest' =>
      match op with
      | Mult | Div => group sum (BinOp term op (Constant (literal_value literal))) rest'
      | Add | Sub =>
          group (fun right => BinOp (sum term) op right)
            (Constant (literal_value literal)) rest'
      end
  end.

Definition usual_tree (first : string) (rest : chain) : expr :=
  group (fun e => e) (Constant (literal_value first)) rest.

Fixpoint chain_tokens (rest : chain) : list token :=
  match rest with
  | [] => []
  | (op, literal) :: rest' =>
      operator op :: TNum (literal_value literal) :: chain_tokens rest'
  end.

(** The multiplicative operators at the head of a chain, applied from the
    left, and what follows them. *)
Fixpoint term_of (term : expr) (rest : chain) : expr * chain :=
  match rest with
  | (Mult, literal) :: rest' => term_of (BinOp term Mult (Constant (literal_value literal))) rest'
  | (Div, literal) :: rest' => term_of (BinOp term Div (Constant (literal_value literal))) rest'
  | _ => (term, rest)
  end.

(** The value of [x op1 y op2 z] by the usual rules: the operator of
    higher precedence is applied first, and of two operators of the same
    precedence the left one. *)
Definition by_precedence (host : Host) (op1 op2 : binop) (x y z : num) : result num :=
  if (precedence op1 <? precedence op2)%nat
  then match apply_binop host op2 y z with
       | Return v => apply_binop host op1 x v
       | Raise e => Raise e
       end
  else match apply_binop host op1 x y with
       | Return v => apply_binop host op2 v z
       | Raise e => Raise e
       end.

Definition contains (part whole : string) : Prop :=
  exists before after, whole = before +:+ part +:+ after.

Fixpoint substringb (part whole : string) : bool :=
  starts_with part whole
  || match whole with
     | EmptyString => false
     | String _ rest => substringb part rest
     end.

Definition no_carriage_return (s : string) : bool :=
  string_forallb (fun c => negb (code c =? 13)%N) s.

(** *** Worlds, files and the loop *)

(** The world after one reading of the clock. *)
Definition after_clock_read (w : world) : world :=
  mkWorld (fs w) (S (ticks w)) (trace w) (io w).

Definition format_required_message : string :=
  "Current time: Custom format string required for custom format type".

(** [write] and then [read] on the same path; the result is that of [read]. *)
Definition write_then_read (host : Host) (w : world) (path content : string)
    : result json * world :=
  let (written, w1) := file_operations host (write_arguments path content) w in
  file_operations host (read_arguments path) w1.

(** The read is a success response whose text contains what was written. *)
Definition reads_back (host : Host) (w : world) (path content : string) : Prop :=
  exists text w',
    write_then_read host w path content = (Return (success (JStr text)), w')
    /\ contains content text.

Definition invalid_json_response : json := failure "Invalid JSON request".

(** Both standard streams are open. *)
Definition healthy (s : streams) : Prop :=
  stdin_closed s = None /\ stdout_closed s = None.

(** [readline] reports the end of the stream. *)
Definition at_end_of_stream (s : streams) : Prop :=
  stdin_closed s = None
  /\ (stdin s = [] \/ exists rest, stdin s = Return "" :: rest).

(** A line that [json.loads] rejects with a [JSONDecodeError]. *)
Definition rejected_line (host : Host) (line : string) : Prop :=
  line <> ""
  /\ exists e, json_loads host (py_strip line) = Raise e /\ exn_kind e = JSONDecodeError.

(** The world after a pass over a rejected line. *)
Definition after_invalid_line (w : world) (rest : list (result string)) (e : exn) : world :=
  mkWorld (fs w) (ticks w) (trace w ++ [EvCaught e])
    (mkStreams rest (stdin_closed (io w))
       (stdout (io w) ++ [Printed invalid_json_response]) (stdout_closed (io w))).

Definition invalid_responses (lines : list string) : list output :=
  map (fun _ => Printed invalid_json_response) lines.

(** *** The conditions under which a response carries [isError] *)

(** Protocol errors: a method that is neither [tools/list] nor
    [tools/call]; a tool name that no registered descriptor carries. *)
Definition unknown_method (request : json) : Prop :=
  request_method request <> JStr "tools/list"
  /\ request_method request <> JStr "tools/call".

Definition unknown_tool (request : json) : Prop :=
  forall d, In d (map snd tools) -> descriptor_name d <> Some (request_tool request).

(** Validation errors that the handlers flag: an operation, info type or
    format outside the values the tool advertises, or an expression that
    fails the allow-list.  A missing format string is not among them, see
    [missing_format_string]. *)
Definition validation_failure (tool_name arguments : json) : Prop :=
  (tool_name = JStr "text_transform"
   /\ ~ In (argument arguments "operation" (JStr ""))
           (allowed_values "text_transform" "operation"))
  \/ (tool_name = JStr "calculate"
      /\ re_match_expression (argument arguments "expression" (JStr "")) = Return false)
  \/ (tool_name = JStr "system_info"
      /\ ~ In (argument arguments "info_type" (JStr ""))
              (allowed_values "system_info" "info_type"))
  \/ (tool_name = JStr "file_operations"
      /\ ~ In (argument arguments "operation" (JStr ""))
              (allowed_values "file_operations" "operation"))
  \/ (tool_name = JStr "current_time"
      /\ ~ In (argument arguments "format" (JStr "iso"))
              (allowed_values "current_time" "format")).

(** Execution faults: an exception was raised and caught on the way. *)
Definition caught (evs : list event) : Prop := exists e, In (EvCaught e) evs.

(** The request was not carried out, as far as the flag [isError] tells. *)
Definition operation_failed (request : json) (evs : list event) : Prop :=
  unknown_method request
  \/ unknown_tool request
  \/ validation_failure (request_tool request) (request_arguments request)
  \/ caught evs.

(** *** Outcomes, as the proofs follow the code *)

(** A handler either returns a success response, and then its validation
    did not fail and nothing was caught, or an error response, and then the
    validation failed or something was caught; or it raises, having caught
    nothing.  In each case the trace only grows. *)
Definition handler_outcome (invalid : Prop) (m : M json) (w : world) : Prop :=
  match m w with
  | (Return r, w') =>
      exists evs,
        trace w' = trace w ++ evs
        /\ Forall (fun ev => exists e, ev = EvCaught e) evs
        /\ ((exists text, r = success text) /\ ~ invalid /\ ~ caught evs
            \/ (exists msg, r = failure msg) /\ (invalid \/ caught evs))
  | (Raise e, w') => trace w' = trace w
  end.

(** The names [call_tool] dispatches on. *)
Definition registered (tool_name : json) : Prop :=
  tool_name = JStr "text_transform" \/ tool_name = JStr "calculate"
  \/ tool_name = JStr "system_info" \/ tool_name = JStr "file_operations"
  \/ tool_name = JStr "current_time".

(** A success response when [failed] does not hold, an error response when
    it does. *)
Definition flagged (failed : Prop) (r : json) : Prop :=
  (exists text, r = success text) /\ ~ failed
  \/ (exists msg, r = failure msg) /\ failed.

(** The failure conditions as the dispatcher tests them. *)
Definition dispatch_failed (request : json) (evs : list event) : Prop :=
  request_method request <> JStr "tools/call"
  \/ ~ registered (request_tool request)
  \/ validation_failure (request_tool request) (request_arguments request)
  \/ caught evs.

(** *** Vocabulary of the further properties *)

Definition is_str (v : json) : bool :=
  match v with
  | JStr _ => true
  | _ => false
  end.

Definition text_arguments (text : json) (operation : string) : json :=
  JDict [("text", text); ("operation", JStr operation)].

Definition path_arguments (operation path : string) : json :=
  JDict [("operation", JStr operation); ("path", JStr path)].

Definition write_value_arguments (path : string) (content : json) : json :=
  JDict [("operation", JStr "write"); ("path", JStr path); ("content", content)].

(** The argument a handler compares with a fixed list of values: its key,
    the default taken when the key is missing, and the start of the error
    message. *)
Definition enumerated_argument (tool : string) : option (string * json * string) :=
  if String.eqb tool "text_transform" then Some ("operation", JStr "", "Unknown operation: ")
  else if String.eqb tool "system_info" then Some ("info_type", JStr "", "Unknown info type: ")
  else if String.eqb tool "file_operations" then Some ("operation", JStr "", "Unknown operation: ")
  else if String.eqb tool "current_time" then Some ("format", JStr "iso", "Unknown format type: ")
  else None.

(** The keys the handlers read, each with the default its handler takes
    when the key is missing. *)
Definition argument_defaults : list (string * json) :=
  [("text", JStr ""); ("operation", JStr ""); ("expression", JStr "");
   ("info_type", JStr ""); ("path", JStr ""); ("content", JStr "");
   ("format", JStr "iso"); ("custom_format", JStr "")].

(** The handler [call_tool] selects for a tool name. *)
Definition handler_of (host : Host) (tool : string) : option (json -> M json) :=
  if String.eqb tool "text_transform" then Some (text_transform host)
  else if String.eqb tool "calculate" then Some (calculate host)
  else if String.eqb tool "system_info" then Some (system_info host)
  else if String.eqb tool "file_operations" then Some (file_operations host)
  else if String.eqb tool "current_time" then Some (current_time host)
  else None.

(** A registry entry is consistent: its descriptor carries the key as its
    name, and every required argument is a declared property. *)
Definition consistent_entry (entry : string * json) : Prop :=
  descriptor_name (snd entry) = Some (JStr (fst entry))
  /\ forall key,
       In (JStr key) (required_arguments (fst entry)) ->
       exists schema,
         json_path (snd entry) ["inputSchema"; "properties"; key] = Some schema.

(** The computation leaves the file system as it found it. *)
Definition keeps_files {A} (m : M A) : Prop := forall w, fs (snd (m w)) = fs w.

Fixpoint count_spaces (s : string) : nat :=
  match s with
  | EmptyString => 0
  | String c s' => ((if (code c =? 32)%N then 1 else 0) + count_spaces s')%nat
  end.

(** Nothing but white space. *)
Definition is_blank (s : string) : bool := string_forallb is_space s.

Definition space : string := " ".

(** The text of a successful transformation of a str. *)
Definition transformed (host : Host) (operation text result : string) : Prop :=
  forall w,
    text_transform host (transform_arguments text operation) w
    = (Return (success (JStr result)), w).

(** A listing of tools. *)
Definition listing (response : json) : Prop :=
  exists descriptors, response = JDict [("tools", JList descriptors)].

(** What the loop prints for a request. *)
Definition answer (r : json) : Prop := uniform r \/ listing r.

(** The world after a pass in which the dispatcher raised. *)
Definition after_server_error (w : world) (rest : list (result string)) (request : json)
    (e : exn) : world :=
  mkWorld (fs w) (ticks w) (trace w ++ [EvDispatch request; EvCaught e])
    (mkStreams rest (stdin_closed (io w))
       (stdout (io w) ++ [Printed (failure ("Server error: " +:+ exn_msg e))])
       (stdout_closed (io w))).

(** The request opens no descriptor and no device: when it names the tool
    [file_operations], its path is a str that is not a device. *)
Definition off_stream (request : json) (w : world) : Prop :=
  request_tool request = JStr "file_operations" ->
  exists p,
    argument (request_arguments request) "path" (JStr "") = JStr p
    /\ fs w !! p <> Some Special.

(** The computation leaves the standard streams alone and creates no
    device. *)
Definition quiet {A} (m : M A) (w : world) : Prop :=
  io (snd (m w)) = io w
  /\ forall p, fs (snd (m w)) !! p = Some Special -> fs w !! p = Some Special.

(** ** Basic facts *)

Lemma eq_str_true (v : json) (s : string) : eq_str v s = true -> v = JStr s.
Proof.
  destruct v; simpl; try discriminate.
  intros H. apply String.eqb_eq in H. now subst.
Qed.

Lemma eq_str_refl (s : string) : eq_str (JStr s) s = true.
Proof. simpl. apply String.eqb_refl. Qed.

Lemma eq_str_false (v : json) (s : string) : eq_str v s = false -> v <> JStr s.
Proof. intros H ->. rewrite eq_str_refl in H. discriminate. Qed.

Lemma append_cons (c : ascii) (s t : string) : String c s +:+ t = String c (s +:+ t).
Proof. reflexivity. Qed.

Lemma append_nil_l (t : string) : "" +:+ t = t.
Proof. reflexivity. Qed.

Lemma append_assoc (s t u : string) : (s +:+ t) +:+ u = s +:+ (t +:+ u).
Proof.
  induction s as [| c s IH]; [reflexivity |].
  now rewrite !append_cons, IH.
Qed.

Lemma string_append_nil_r (s : string) : s +:+ "" = s.
Proof.
  induction s as [| c s IH]; [reflexivity |].
  now rewrite append_cons, IH.
Qed.

Lemma string_rev_onto_twice (s a b : string) :
  string_rev_onto (string_rev_onto s a) b = string_rev_onto a (s +:+ b).
Proof.
  revert a. induction s as [| c s IH]; intros a; simpl.
  - reflexivity.
  - now rewrite IH.
Qed.

Lemma str_reverse_involutive (s : string) : str_reverse (str_reverse s) = s.
Proof.
  unfold str_reverse. rewrite string_rev_onto_twice.
  change (string_rev_onto "" (s +:+ "")) with (s +:+ "").
  apply string_append_nil_r.
Qed.

Ltac all_chars c := destruct c as [[] [] [] [] [] [] [] []].

Lemma lower_upper_char (c : ascii) : lower_char (upper_char c) = lower_char c.
Proof. all_chars c; reflexivity. Qed.

Lemma upper_char_ascii (c : ascii) : is_ascii_char (upper_char c) = is_ascii_char c.
Proof. all_chars c; reflexivity. Qed.

Lemma lower_char_fixed (c : ascii) : is_upper c = false -> lower_char c = c.
Proof. unfold lower_char. now intros ->. Qed.

Lemma string_map_upper_ascii (s : string) :
  is_ascii (string_map upper_char s) = is_ascii s.
Proof.
  unfold is_ascii. induction s as [| c s IH]; simpl; [reflexivity |].
  now rewrite upper_char_ascii, IH.
Qed.

Lemma string_map_lower_upper (s : string) :
  string_map lower_char (string_map upper_char s) = string_map lower_char s.
Proof.
  induction s as [| c s IH]; simpl; [reflexivity |].
  now rewrite lower_upper_char, IH.
Qed.

Lemma string_map_lower_fixed (s : string) :
  already_lowercase s = true -> string_map lower_char s = s.
Proof.
  unfold already_lowercase. induction s as [| c s IH]; simpl; [reflexivity |].
  intros H. apply andb_prop in H as [Hc Hs].
  rewrite lower_char_fixed, IH; auto.
  now destruct (is_upper c).
Qed.

Lemma code_is (c : ascii) (n : N) : (code c =? n)%N = true -> c = ascii_of_N n.
Proof.
  intros H. apply N.eqb_eq in H. subst n. unfold code.
  symmetry. apply ascii_N_embedding.
Qed.

(** ** Stepping through the monad *)

Ltac run_monad :=
  unfold bind, lift, ret, raise, try_except, log; simpl.

(** ** tools/list *)

Lemma handle_tools_list (host : Host) (w : world) (d : list (string * json)) :
  tools_list_request d ->
  handle_request host (JDict d) w =
    (Return (JDict [("tools", JList (map snd tools))]),
     add_event (EvDispatch (JDict d)) w).
Proof.
  intros Hm. unfold handle_request. run_monad. rewrite Hm. reflexivity.
Qed.

Lemma registry_names :
  map descriptor_name (map snd tools) =
    [Some (JStr "text_transform"); Some (JStr "calculate"); Some (JStr "system_info");
     Some (JStr "file_operations"); Some (JStr "current_time")].
Proof. reflexivity. Qed.

Lemma registry_names_distinct : NoDup (map descriptor_name (map snd tools)).
Proof.
  rewrite registry_names.
  repeat (apply NoDup_cons_2; [rewrite ?list_elem_of_In; simpl; intuition discriminate |]).
  apply NoDup_nil_2.
Qed.

(** C5: a request whose method is [tools/list] is answered by
    [{"tools": [...]}], which is not the uniform response; the list has one
    descriptor per registered tool, five in all, each with a name, and no two
    names are equal. *)
Theorem tools_list_response (host : Host) (w : world) (d : list (string * json)) :
  tools_list_request d ->
  exists descriptors w',
    handle_request host (JDict d) w = (Return (JDict [("tools", JList descriptors)]), w')
    /\ ~ uniform (JDict [("tools", JList descriptors)])
    /\ length descriptors = length tools
    /\ length tools = 5%nat
    /\ Forall (fun t => exists name, descriptor_name t = Some (JStr name)) descriptors
    /\ NoDup (map descriptor_name descriptors).
Proof.
  intros Hm. exists (map snd tools), (add_event (EvDispatch (JDict d)) w).
  split; [now apply handle_tools_list |].
  split; [intros (items & flag & Heq & _); discriminate |].
  split; [apply length_map |].
  split; [reflexivity |].
  split; [| apply registry_names_distinct].
  unfold tools; simpl map.
  repeat (apply Forall_cons; split; [eexists; reflexivity |]). apply Forall_nil_2.
Qed.

Lemma tools_list_response_witness :
  tools_list_request [("method", JStr "tools/list")]
  /\ exists descriptors w',
       handle_request sample_host (JDict [("method", JStr "tools/list")]) empty_world
         = (Return (JDict [("tools", JList descriptors)]), w')
       /\ ~ uniform (JDict [("tools", JList descriptors)])
       /\ length descriptors = length tools
       /\ length tools = 5%nat
       /\ Forall (fun t => exists name, descriptor_name t = Some (JStr name)) descriptors
       /\ NoDup (map descriptor_name descriptors).
Proof.
  split; [reflexivity |].
  apply (tools_list_response sample_host empty_world [("method", JStr "tools/list")]).
  reflexivity.
Defined.

(** ** text_transform *)

Lemma text_transform_reverse (host : Host) (w : world) (text : string) :
  text_transform host (transform_arguments text "reverse") w
  = (Return (success (JStr (str_reverse text))), w).
Proof. reflexivity. Qed.

Lemma text_transform_uppercase (host : Host) (w : world) (text : string) :
  is_ascii text = true ->
  text_transform host (transform_arguments text "uppercase") w
  = (Return (success (JStr (string_map upper_char text))), w).
Proof.
  intros H. unfold text_transform, transform_arguments. run_monad.
  unfold py_upper, str_method. now rewrite H.
Qed.

Lemma text_transform_lowercase (host : Host) (w : world) (text : string) :
  is_ascii text = true ->
  text_transform host (transform_arguments text "lowercase") w
  = (Return (success (JStr (string_map lower_char text))), w).
Proof.
  intros H. unfold text_transform, transform_arguments. run_monad.
  unfold py_lower, str_method. now rewrite H.
Qed.

(** C8: on ASCII text, [reverse] applied to its own result gives the
    text back, and [uppercase] followed by [lowercase] gives back a text
    that had no upper-case letter. *)
Theorem text_transform_reverse_involution (host : Host) (w : world) (text : string) :
  is_ascii text = true ->
  (exists once,
     text_transform host (transform_arguments text "reverse") w
       = (Return (success (JStr once)), w)
     /\ text_transform host (transform_arguments once "reverse") w
       = (Return (success (JStr text)), w))
  /\ (already_lowercase text = true ->
      exists upper,
        text_transform host (transform_arguments text "uppercase") w
          = (Return (success (JStr upper)), w)
        /\ text_transform host (transform_arguments upper "lowercase") w
          = (Return (success (JStr text)), w)).
Proof.
  intros Hascii. split.
  - exists (str_reverse text). split; [apply text_transform_reverse |].
    rewrite text_transform_reverse. now rewrite str_reverse_involutive.
  - intros Hlow. exists (string_map upper_char text).
    split; [now apply text_transform_uppercase |].
    rewrite text_transform_lowercase by now rewrite string_map_upper_ascii.
    now rewrite string_map_lower_upper, string_map_lower_fixed.
Qed.

Lemma text_transform_reverse_involution_witness :
  is_ascii "hello world" = true
  /\ (exists once,
        text_transform sample_host (transform_arguments "hello world" "reverse") empty_world
          = (Return (success (JStr once)), empty_world)
        /\ text_transform sample_host (transform_arguments once "reverse") empty_world
          = (Return (success (JStr "hello world")), empty_world))
  /\ (already_lowercase "hello world" = true ->
      exists upper,
        text_transform sample_host (transform_arguments "hello world" "uppercase") empty_world
          = (Return (success (JStr upper)), empty_world)
        /\ text_transform sample_host (transform_arguments upper "lowercase") empty_world
          = (Return (success (JStr "hello world")), empty_world)).
Proof.
  split; [reflexivity |].
  apply (text_transform_reverse_involution sample_host empty_world "hello world").
  reflexivity.
Defined.

(** ** calculate *)

Lemma in_class_listed (c : ascii) : in_class c = listed_char c || is_point c.
Proof. all_chars c; reflexivity. Qed.

Lemma letter_not_in_class (c : ascii) : is_letter c = true -> in_class c = false.
Proof. all_chars c; simpl; intros H; try reflexivity; discriminate H. Qed.

Lemma match_class_plus_all (s : string) (seen : bool) :
  match_class_plus seen s = true -> string_forallb in_class s = true.
Proof.
  revert seen. induction s as [| c s IH]; intros seen; [reflexivity |].
  simpl. intros H. apply orb_prop in H as [H | H].
  - apply andb_prop in H as [_ H]. destruct s; [| discriminate].
    apply code_is in H. subst c. reflexivity.
  - apply andb_prop in H as [Hc Hs]. rewrite Hc. simpl. eauto.
Qed.

Lemma match_class_plus_seen (s : string) :
  string_forallb in_class s = true -> match_class_plus true s = true.
Proof.
  induction s as [| c s IH]; [reflexivity |].
  simpl. intros H. apply andb_prop in H as [Hc Hs].
  rewrite Hc, (IH Hs). simpl. apply orb_true_r.
Qed.

Lemma occurs_forallb (p : ascii -> bool) (c : ascii) (s : string) :
  occurs c s -> p c = false -> string_forallb p s = false.
Proof.
  unfold occurs. induction s as [| c' s IH]; simpl; [tauto |].
  intros [-> | H] Hp.
  - now rewrite Hp.
  - rewrite IH by assumption. apply andb_false_r.
Qed.

Lemma string_forallb_app (p : ascii -> bool) (s t : string) :
  string_forallb p (s +:+ t) = string_forallb p s && string_forallb p t.
Proof.
  induction s as [| c s IH]; [reflexivity |].
  rewrite append_cons. simpl. now rewrite IH, andb_assoc.
Qed.

Lemma is_literal_digits (s : string) : is_literal s = true -> string_forallb is_digit s = true.
Proof.
  destruct s as [| c s]; [discriminate |].
  unfold is_literal. intros H.
  destruct c as [[] [] [] [] [] [] [] []]; try exact H; destruct s; try exact H; discriminate.
Qed.

Lemma is_literal_number (s : string) :
  is_literal s = true -> number_token s = Some [TNum (literal_value s)].
Proof.
  destruct s as [| c s]; [discriminate |].
  unfold is_literal, number_token. intros H.
  destruct c as [[] [] [] [] [] [] [] []]; try reflexivity; destruct s; try reflexivity; discriminate.
Qed.

Lemma digit_in_class (s : string) :
  string_forallb is_digit s = true -> string_forallb in_class s = true.
Proof.
  induction s as [| c s IH]; [reflexivity |].
  simpl. intros H. apply andb_prop in H as [Hc Hs].
  unfold in_class. rewrite Hc. simpl. auto.
Qed.

(** Digits accumulate in the pending literal. *)
Lemma tokenize_digits (digits pending rest : string) :
  string_forallb is_digit digits = true ->
  tokenize (Some pending) (digits +:+ rest) = tokenize (Some (pending +:+ digits)) rest.
Proof.
  revert pending. induction digits as [| c digits IH]; intros pending H.
  - now rewrite append_nil_l, string_append_nil_r.
  - simpl in H. apply andb_prop in H as [Hc Hs].
    rewrite append_cons. simpl. rewrite Hc.
    rewrite (IH _ Hs). now rewrite append_assoc.
Qed.

Lemma tokenize_literal (literal rest : string) :
  is_literal literal = true ->
  tokenize None (literal +:+ rest) = tokenize (Some literal) rest.
Proof.
  intros H. destruct literal as [| c digits]; [discriminate |].
  apply is_literal_digits in H. simpl in H. apply andb_prop in H as [Hc Hs].
  rewrite append_cons. simpl. rewrite Hc.
  now rewrite (tokenize_digits digits _ rest Hs).
Qed.

Lemma tokenize_chain (rest : chain) (first : string) :
  is_literal first = true ->
  forallb (fun item => is_literal (snd item)) rest = true ->
  tokenize (Some first) (chain_text rest)
  = Some (TNum (literal_value first) :: chain_tokens rest).
Proof.
  revert first. induction rest as [| [op literal] rest IH]; intros first Hfirst Hrest.
  - simpl. now apply is_literal_number.
  - simpl in Hrest. apply andb_prop in Hrest as [Hliteral Hrest].
    assert (Hnext : tokenize None (literal +:+ chain_text rest)
                    = Some (TNum (literal_value literal) :: chain_tokens rest)).
    { rewrite (tokenize_literal _ _ Hliteral). now apply IH. }
    destruct op; simpl; rewrite (is_literal_number _ Hfirst), append_nil_l, Hnext;
      reflexivity.
Qed.

Lemma term_of_shorter (rest : chain) (term : expr) :
  (length (snd (term_of term rest)) <= length rest)%nat.
Proof.
  revert term. induction rest as [| [[] literal] rest IH]; intros term; simpl; try lia.
  - specialize (IH (BinOp term Mult (Constant (literal_value literal)))). lia.
  - specialize (IH (BinOp term Div (Constant (literal_value literal)))). lia.
Qed.

Lemma group_term_of (rest : chain) (sum : expr -> expr) (term : expr) :
  group sum term rest
  = match term_of term rest with
    | (t, []) => sum t
    | (t, (op, literal) :: rest') =>
        group (fun right => BinOp (sum t) op right) (Constant (literal_value literal)) rest'
    end.
Proof.
  revert sum term. induction rest as [| [[] literal] rest IH]; intros sum term; simpl;
    try reflexivity; apply IH.
Qed.

Lemma term_of_additive (rest : chain) (term : expr) (t : expr) (op : binop)
    (literal : string) (rest' : chain) :
  term_of term rest = (t, (op, literal) :: rest') -> op = Add \/ op = Sub.
Proof.
  revert term. induction rest as [| [[] lit] rest IH]; intros term; simpl;
    try discriminate; try (intros H; injection H as _ <- _ _; auto; fail); apply IH.
Qed.

Lemma parse_factor_number (fuel : nat) (n : Z) (ts : list token) :
  parse_factor (S fuel) (TNum n :: ts) = Some (Constant n, ts).
Proof. reflexivity. Qed.

Lemma parse_term_step (fuel : nat) (ts : list token) :
  parse_term (S fuel) ts
  = match parse_factor fuel ts with
    | Some (l, rest) => term_tail fuel l rest
    | None => None
    end.
Proof. reflexivity. Qed.

Lemma term_tail_step (fuel : nat) (l : expr) (op : binop) (ts : list token) :
  term_tail (S fuel) l (operator op :: ts)
  = match op with
    | Mult | Div =>
        match parse_factor fuel ts with
        | Some (r, rest) => term_tail fuel (BinOp l op r) rest
        | None => None
        end
    | Add | Sub => Some (l, operator op :: ts)
    end.
Proof. destruct op; reflexivity. Qed.

Lemma sum_tail_step (fuel : nat) (l : expr) (op : binop) (ts : list token) :
  op = Add \/ op = Sub ->
  sum_tail (S fuel) l (operator op :: ts)
  = match parse_term fuel ts with
    | Some (r, rest) => sum_tail fuel (BinOp l op r) rest
    | None => None
    end.
Proof. intros [-> | ->]; reflexivity. Qed.

Lemma parse_sum_step (fuel : nat) (ts : list token) :
  parse_sum (S fuel) ts
  = match parse_term fuel ts with
    | Some (l, rest) => sum_tail fuel l rest
    | None => None
    end.
Proof. reflexivity. Qed.

Lemma term_tail_chain (rest : chain) (fuel : nat) (term : expr) :
  (2 * length rest < fuel)%nat ->
  term_tail fuel term (chain_tokens rest)
  = Some (fst (term_of term rest), chain_tokens (snd (term_of term rest))).
Proof.
  revert fuel term. induction rest as [| [op literal] rest IH]; intros fuel term Hfuel;
    (destruct fuel as [| fuel]; [simpl in Hfuel; lia |]).
  - reflexivity.
  - simpl in Hfuel. destruct fuel as [| fuel]; [lia |].
    cbn [chain_tokens]. rewrite term_tail_step.
    destruct op; try reflexivity; rewrite parse_factor_number; cbn [term_of];
      apply IH; lia.
Qed.

Lemma parse_term_chain (rest : chain) (fuel : nat) (literal : string) :
  (2 * length rest + 2 < fuel)%nat ->
  parse_term fuel (TNum (literal_value literal) :: chain_tokens rest)
  = Some (fst (term_of (Constant (literal_value literal)) rest),
          chain_tokens (snd (term_of (Constant (literal_value literal)) rest))).
Proof.
  intros Hfuel. do 2 (destruct fuel as [| fuel]; [lia |]).
  rewrite parse_term_step, parse_factor_number. apply term_tail_chain. lia.
Qed.

Lemma sum_tail_chain (n : nat) :
  forall (rest : chain) (fuel : nat) (l : expr) (op : binop) (literal : string),
    (length rest <= n)%nat ->
    (2 * length rest + 4 < fuel)%nat ->
    op = Add \/ op = Sub ->
    sum_tail fuel l (chain_tokens ((op, literal) :: rest))
    = Some (group (fun right => BinOp l op right)
              (Constant (literal_value literal)) rest, []).
Proof.
  induction n as [| n IH]; intros rest fuel l op literal Hn Hfuel Hop;
    (destruct fuel as [| fuel]; [lia |]);
    cbn [chain_tokens]; rewrite (sum_tail_step _ _ _ _ Hop);
    rewrite parse_term_chain by lia;
    rewrite (group_term_of rest);
    pose proof (term_of_shorter rest (Constant (literal_value literal))) as Hshort;
    destruct (term_of (Constant (literal_value literal)) rest) as [t' rest'] eqn:Hsplit;
    cbn [fst snd] in *.
  - destruct rest; [| simpl in Hn; lia]. simpl in Hsplit. injection Hsplit as <- <-.
    destruct fuel; [lia | reflexivity].
  - destruct rest' as [| [op' literal'] rest'].
    + destruct fuel; [lia | reflexivity].
    + apply term_of_additive in Hsplit as Hop'.
      apply (IH rest' fuel (BinOp l op t') op' literal').
      * simpl in Hshort. lia.
      * simpl in Hshort. lia.
      * assumption.
Qed.

Lemma parse_chain (first : string) (rest : chain) :
  (length rest <= 100)%nat ->
  parse_tokens (TNum (literal_value first) :: chain_tokens rest)
  = Some (usual_tree first rest).
Proof.
  intros Hlen. unfold parse_tokens, parse_fuel.
  rewrite parse_sum_step, parse_term_chain by lia.
  unfold usual_tree. rewrite (group_term_of rest).
  pose proof (term_of_shorter rest (Constant (literal_value first))) as Hshort.
  destruct (term_of (Constant (literal_value first)) rest) as [t rest'] eqn:Hsplit.
  cbn [fst snd] in *.
  destruct rest' as [| [op literal] rest'].
  - reflexivity.
  - apply term_of_additive in Hsplit as Hop.
    rewrite (sum_tail_chain (length rest') rest' _ t op literal);
      [reflexivity | lia | simpl in Hshort; lia | assumption].
Qed.

Lemma string_length_app (s t : string) :
  String.length (s +:+ t) = (String.length s + String.length t)%nat.
Proof.
  induction s as [| c s IH]; [reflexivity |].
  rewrite append_cons. simpl. now rewrite IH.
Qed.

Lemma chain_text_length (rest : chain) :
  (length rest <= String.length (chain_text rest))%nat.
Proof.
  induction rest as [| [op literal] rest IH]; [simpl; lia |].
  cbn [chain_text length]. rewrite !string_length_app. simpl. lia.
Qed.

Lemma chain_allowed (rest : chain) :
  forallb (fun item => is_literal (snd item)) rest = true ->
  string_forallb in_class (chain_text rest) = true.
Proof.
  induction rest as [| [op literal] rest IH]; [reflexivity |].
  simpl. intros H. apply andb_prop in H as [Hliteral Hrest].
  rewrite !string_forallb_app, (IH Hrest).
  rewrite (digit_in_class literal) by now apply is_literal_digits.
  destruct op; reflexivity.
Qed.

Lemma chain_expression_allowed (first : string) (rest : chain) :
  chain_literals first rest = true ->
  match_class_plus false (chain_expression first rest) = true.
Proof.
  unfold chain_literals, chain_expression. intros H. apply andb_prop in H as [Hfirst Hrest].
  assert (Hall : string_forallb in_class (first +:+ chain_text rest) = true).
  { rewrite string_forallb_app, (chain_allowed rest Hrest).
    rewrite (digit_in_class first) by now apply is_literal_digits. reflexivity. }
  destruct first as [| ch first]; [discriminate |].
  rewrite append_cons in *. simpl in *.
  apply andb_prop in Hall as [H1 H2]. rewrite H1.
  now rewrite (match_class_plus_seen _ H2).
Qed.

Lemma parse_chain_expression (first : string) (rest : chain) :
  chain_literals first rest = true ->
  (String.length (chain_expression first rest) <= short_expression)%nat ->
  parse_expression (chain_expression first rest) = Some (usual_tree first rest).
Proof.
  unfold chain_literals, chain_expression, parse_expression, short_expression.
  intros H Hlen. apply andb_prop in H as [Hfirst Hrest].
  rewrite (tokenize_literal _ _ Hfirst), (tokenize_chain rest first Hfirst Hrest).
  apply parse_chain.
  pose proof (chain_text_length rest). rewrite string_length_app in Hlen. lia.
Qed.



Example chain_expression_text :
  chain_expression "8" [(Div, "4"); (Div, "2")] = "8 / 4 / 2"
  /\ chain_expression "1" [(Add, "2"); (Mult, "3"); (Sub, "4"); (Div, "5")]
     = "1 + 2 * 3 - 4 / 5".
Proof. split; reflexivity. Qed.

Example usual_tree_of_a_chain :
  usual_tree "1" [(Add, "2"); (Mult, "3"); (Sub, "4"); (Div, "5")]
  = BinOp (BinOp (Constant 1) Add (BinOp (Constant 2) Mult (Constant 3))) Sub
      (BinOp (Constant 4) Div (Constant 5)).
Proof. reflexivity. Qed.

(** The division is applied from left to right, and a product before a
    difference. *)
Example calculate_divides_from_the_left :
  fst (calculate sample_host (expression_arguments "8 / 4 / 2") empty_world)
  = Return (success (JStr "8 / 4 / 2 = 1.0")).
Proof. vm_compute. reflexivity. Qed.

Example calculate_subtracts_from_the_left (host : Host) (w : world) :
  calculate host (expression_arguments "10 - 4 - 3") w
  = (Return (success (JStr "10 - 4 - 3 = 3")), w).
Proof. reflexivity. Qed.

Example calculate_multiplies_first (host : Host) (w : world) :
  calculate host (expression_arguments "20 - 3 * 4") w
  = (Return (success (JStr "20 - 3 * 4 = 8")), w).
Proof. reflexivity. Qed.

Example calculate_division_by_zero :
  fst (calculate sample_host (expression_arguments "4 - 1 / 0") empty_world)
  = Return (failure "Error calculating '4 - 1 / 0': division by zero").
Proof. vm_compute. reflexivity. Qed.

Lemma calculate_rejects (host : Host) (w : world) (d : list (string * json))
    (expression : string) :
  dict_get d "expression" = Some (JStr expression) ->
  string_forallb in_class expression = false ->
  calculate host (JDict d) w = (Return (failure invalid_expression), w).
Proof.
  intros Hd Hbad. unfold calculate. run_monad. rewrite Hd. simpl.
  destruct (match_class_plus false expression) eqn:Hm; [| reflexivity].
  apply match_class_plus_all in Hm. congruence.
Qed.

(** C2, as amended: when the expression contains a character that is
    neither a digit, white space, a parenthesis, one of [+ - * /] nor the
    decimal point, [calculate] answers with the error response whose text is
    the "Invalid expression" message; every letter is such a character. *)
Theorem calculate_rejects_unlisted (host : Host) (w : world)
    (d : list (string * json)) (expression : string) (c : ascii) :
  dict_get d "expression" = Some (JStr expression) ->
  occurs c expression ->
  listed_char c || is_point c = false \/ is_letter c = true ->
  calculate host (JDict d) w = (Return (failure invalid_expression), w)
  /\ is_error (failure invalid_expression) = true
  /\ starts_with "Invalid expression" invalid_expression = true.
Proof.
  intros Hd Hocc Hc. split; [| split; reflexivity].
  apply calculate_rejects with (expression := expression); [assumption |].
  apply occurs_forallb with (c := c); [assumption |].
  destruct Hc as [Hc | Hc].
  - now rewrite in_class_listed.
  - now apply letter_not_in_class.
Qed.

Lemma calculate_rejects_unlisted_witness :
  dict_get [("expression", JStr "2 + x")] "expression" = Some (JStr "2 + x")
  /\ occurs "x" "2 + x"
  /\ (listed_char "x" || is_point "x" = false \/ is_letter "x" = true)
  /\ calculate sample_host (expression_arguments "2 + x") empty_world
     = (Return (failure invalid_expression), empty_world)
  /\ is_error (failure invalid_expression) = true
  /\ starts_with "Invalid expression" invalid_expression = true.
Proof.
  split; [reflexivity |].
  split; [unfold occurs; simpl; auto 10 |].
  split; [right; reflexivity |].
  apply (calculate_rejects_unlisted sample_host empty_world
           [("expression", JStr "2 + x")] "2 + x" "x").
  - reflexivity.
  - unfold occurs; simpl; auto 10.
  - right; reflexivity.
Defined.

(** The decimal point is none of the listed characters, yet an expression
    that contains it is evaluated: whatever the host's evaluator returns for
    ["1.5"], the text of the response does not begin with "Invalid
    expression". *)
Lemma calculate_accepts_decimal_point :
  occurs "." "1.5"
  /\ listed_char "." = false
  /\ forall (host : Host) (w : world),
       exists text flag w',
         calculate host (expression_arguments "1.5") w
           = (Return (JDict (("content", JList [text_item (JStr text)]) :: flag)), w')
         /\ starts_with "Invalid expression" text = false.
Proof.
  split; [unfold occurs; simpl; auto 10 |]. split; [reflexivity |].
  intros host w. unfold calculate, expression_arguments. run_monad.
  unfold py_eval. simpl.
  destruct (host_eval host "1.5") as [r | e].
  - eexists _, _, _. split; reflexivity.
  - eexists _, _, _. split; reflexivity.
Qed.

(** ** current_time *)

(** C6: with [format] equal to ["custom"] and [custom_format] empty (or
    left out, which defaults to the empty string), [current_time] returns a
    success response, without [isError], whose text says that a format
    string is required; no exception is caught on the way. *)
Theorem current_time_custom_needs_format (host : Host) (w : world)
    (d : list (string * json)) :
  dict_get d "format" = Some (JStr "custom") ->
  dict_get d "custom_format" = Some (JStr "") \/ dict_get d "custom_format" = None ->
  current_time host (JDict d) w
    = (Return (success (JStr format_required_message)), after_clock_read w)
  /\ is_error (success (JStr format_required_message)) = false
  /\ json_path (success (JStr format_required_message)) ["isError"] = None.
Proof.
  intros Hf Hc. split; [| split; reflexivity].
  unfold current_time. run_monad. rewrite Hf.
  destruct Hc as [-> | ->]; reflexivity.
Qed.

Lemma current_time_custom_needs_format_witness :
  dict_get [("format", JStr "custom"); ("custom_format", JStr "")] "format"
    = Some (JStr "custom")
  /\ current_time sample_host
       (JDict [("format", JStr "custom"); ("custom_format", JStr "")]) empty_world
     = (Return (success (JStr format_required_message)), after_clock_read empty_world)
  /\ is_error (success (JStr format_required_message)) = false
  /\ json_path (success (JStr format_required_message)) ["isError"] = None.
Proof.
  split; [reflexivity |].
  apply (current_time_custom_needs_format sample_host empty_world
           [("format", JStr "custom"); ("custom_format", JStr "")]).
  - reflexivity.
  - left; reflexivity.
Defined.

(** C9: when the arguments are a mapping without the key [format],
    [current_time] takes ["iso"] and returns a success response with the
    ISO-8601 rendering of the clock, although the advertised schema lists
    [format] among the required arguments. *)
Theorem current_time_format_defaults_to_iso (host : Host) (w : world)
    (d : list (string * json)) :
  dict_get d "format" = None ->
  current_time host (JDict d) w
    = (Return (success (JStr ("Current time: " +:+ isoformat (clock host (ticks w))))),
       after_clock_read w)
  /\ is_error (success (JStr ("Current time: " +:+ isoformat (clock host (ticks w))))) = false
  /\ In (JStr "format") (required_arguments "current_time").
Proof.
  intros Hf. split; [| split; [reflexivity | simpl; auto]].
  unfold current_time. run_monad. rewrite Hf. reflexivity.
Qed.

Lemma current_time_format_defaults_to_iso_witness :
  dict_get [("timezone", JStr "local")] "format" = None
  /\ current_time sample_host (JDict [("timezone", JStr "local")]) empty_world
     = (Return (success (JStr "Current time: 2024-01-15T10:30:00")),
        after_clock_read empty_world)
  /\ is_error (success (JStr "Current time: 2024-01-15T10:30:00")) = false
  /\ In (JStr "format") (required_arguments "current_time").
Proof.
  split; [reflexivity |].
  apply (current_time_format_defaults_to_iso sample_host empty_world
           [("timezone", JStr "local")]).
  reflexivity.
Defined.

(** ** file_operations: write, then read *)

Lemma starts_with_append (part after : string) : starts_with part (part +:+ after) = true.
Proof.
  induction part as [| c part IH]; [reflexivity |].
  rewrite append_cons. simpl. now rewrite Ascii.eqb_refl.
Qed.

Lemma contains_substringb (part whole : string) :
  contains part whole -> substringb part whole = true.
Proof.
  intros (before & after & ->).
  induction before as [| c before IH].
  - rewrite append_nil_l. destruct (part +:+ after) eqn:E; simpl;
      rewrite <- E, starts_with_append; reflexivity.
  - rewrite append_cons. simpl. rewrite IH. apply orb_true_r.
Qed.

Lemma read_write_translate (sep : linesep) (s : string) :
  no_carriage_return s = true -> read_translate (write_translate sep s) = s.
Proof.
  unfold no_carriage_return. induction s as [| c s IH]; [reflexivity |].
  simpl. intros H. apply andb_prop in H as [Hc Hs]. specialize (IH Hs).
  destruct (code c =? 10)%N eqn:Hlf.
  - apply code_is in Hlf. subst c. destruct sep; simpl; now rewrite IH.
  - simpl. apply negb_true_iff in Hc. rewrite Hc. now rewrite IH.
Qed.

Lemma file_write_succeeds (host : Host) (w : world) (path content : string) :
  open_w_fault host path = None ->
  write_fault host path content = None ->
  (fs w !! path = None \/ exists old, fs w !! path = Some (File old)) ->
  file_operations host (write_arguments path content) w
  = (Return (success (JStr ("Successfully wrote to " +:+ path))),
     set_fs (<[path := File (write_translate (os_linesep host) content)]> (fs w)) w).
Proof.
  intros Hopen Hfault Hnode. unfold file_operations, write_arguments. run_monad.
  unfold write_file. rewrite Hopen.
  destruct Hnode as [-> | [old ->]]; rewrite Hfault; reflexivity.
Qed.

Lemma file_read_succeeds (host : Host) (w : world) (path data : string) :
  open_r_fault host path = None ->
  fs w !! path = Some (File data) ->
  file_operations host (read_arguments path) w
  = (Return (success (JStr ("Contents of " +:+ path +:+ ":" +:+ nl +:+ read_translate data))), w).
Proof.
  intros Hopen Hnode. unfold file_operations, read_arguments. run_monad.
  unfold os_path_isfile, read_file. rewrite Hnode. simpl. rewrite Hopen, Hnode.
  reflexivity.
Qed.

(** C7, as amended: for a path that is absent or a regular file and that
    the operating system lets the server open for writing and for reading,
    and a content without carriage return that is written without an error
    (it can be encoded and the volume takes it), [write] succeeds and the
    [read] that follows is a success response whose text is the header line
    followed by the written content. *)
Theorem write_then_read_returns_content (host : Host) (w : world)
    (path content : string) :
  open_w_fault host path = None ->
  write_fault host path content = None ->
  open_r_fault host path = None ->
  (fs w !! path = None \/ exists old, fs w !! path = Some (File old)) ->
  no_carriage_return content = true ->
  (exists w1,
     file_operations host (write_arguments path content) w
       = (Return (success (JStr ("Successfully wrote to " +:+ path))), w1)
     /\ file_operations host (read_arguments path) w1
       = (Return (success (JStr ("Contents of " +:+ path +:+ ":" +:+ nl +:+ content))), w1))
  /\ reads_back host w path content.
Proof.
  intros Hw Hfault Hr Hnode Hcr.
  pose proof (file_write_succeeds host w path content Hw Hfault Hnode) as Hwrite.
  set (w1 := set_fs (<[path := File (write_translate (os_linesep host) content)]> (fs w)) w) in *.
  assert (Hread : file_operations host (read_arguments path) w1
                  = (Return (success (JStr ("Contents of " +:+ path +:+ ":" +:+ nl +:+ content))), w1)).
  { rewrite (file_read_succeeds host w1 path (write_translate (os_linesep host) content) Hr).
    - now rewrite read_write_translate.
    - unfold w1. simpl. apply lookup_insert_eq. }
  split.
  - exists w1. split; assumption.
  - exists ("Contents of " +:+ path +:+ ":" +:+ nl +:+ content), w1. split.
    + unfold write_then_read. rewrite Hwrite. exact Hread.
    + exists ("Contents of " +:+ path +:+ ":" +:+ nl), "".
      rewrite string_append_nil_r.
      now rewrite !append_assoc.
Qed.

Lemma write_then_read_returns_content_witness :
  open_w_fault sample_host "notes.txt" = None
  /\ write_fault sample_host "notes.txt" "hello" = None
  /\ open_r_fault sample_host "notes.txt" = None
  /\ fs empty_world !! "notes.txt" = None
  /\ no_carriage_return "hello" = true
  /\ (exists w1,
        file_operations sample_host (write_arguments "notes.txt" "hello") empty_world
          = (Return (success (JStr "Successfully wrote to notes.txt")), w1)
        /\ file_operations sample_host (read_arguments "notes.txt") w1
          = (Return (success (JStr ("Contents of notes.txt:" +:+ nl +:+ "hello"))), w1))
  /\ reads_back sample_host empty_world "notes.txt" "hello".
Proof.
  split; [reflexivity |].
  split; [reflexivity |].
  split; [reflexivity |].
  split; [vm_compute; reflexivity |].
  split; [reflexivity |].
  apply (write_then_read_returns_content sample_host empty_world "notes.txt" "hello").
  - reflexivity.
  - reflexivity.
  - reflexivity.
  - left. vm_compute. reflexivity.
  - reflexivity.
Defined.

(** Three inputs at which the read does not give back what was written: a
    path that is a directory, where [open] fails and the read reports that
    the file is not found; a content with a carriage return, which reading
    in text mode turns into a line feed; and a write that fails after the
    file was opened, which leaves the file without the content. *)
Lemma write_then_read_loses_content :
  ~ reads_back sample_host dir_world "." "hello"
  /\ ~ reads_back sample_host empty_world "notes.txt" (String "a" (String CR "b"))
  /\ ~ reads_back sample_host empty_world full_volume_path "hello".
Proof.
  repeat split; intros (text & w' & H & Hc); apply contains_substringb in Hc;
    vm_compute in H; injection H as Htext _; subst text;
    vm_compute in Hc; discriminate Hc.
Qed.

Example write_to_directory_fails :
  fst (file_operations sample_host (write_arguments "." "hello") dir_world)
  = Return (failure "Error with file operation: [Errno 21] Is a directory: '.'").
Proof. vm_compute. reflexivity. Qed.

Example read_after_failed_write :
  fst (write_then_read sample_host dir_world "." "hello")
  = Return (success (JStr "File . not found")).
Proof. vm_compute. reflexivity. Qed.

Example read_after_full_volume :
  fst (file_operations sample_host (write_arguments full_volume_path "hello") empty_world)
  = Return (failure "Error with file operation: [Errno 28] No space left on device")
  /\ fst (write_then_read sample_host empty_world full_volume_path "hello")
     = Return (success (JStr ("Contents of /mnt/full/notes.txt:" +:+ nl))).
Proof. split; vm_compute; reflexivity. Qed.

Example read_after_carriage_return :
  fst (write_then_read sample_host empty_world "notes.txt" (String "a" (String CR "b")))
  = Return (success (JStr ("Contents of notes.txt:" +:+ nl +:+ String "a" (String LF "b")))).
Proof. vm_compute. reflexivity. Qed.

(** ** Outcome of each handler *)

Lemma not_caught_nil : ~ caught [].
Proof. intros [e []]. Qed.

Lemma caught_one (e : exn) : caught [EvCaught e].
Proof. exists e. now left. Qed.

Ltac break_if :=
  match goal with
  | |- context [if eq_str ?v ?s then _ else _] =>
      let H := fresh "Heq" in
      destruct (eq_str v s) eqn:H;
      [apply eq_str_true in H; try subst v |]
  end.

Ltac succeeded :=
  exists []; split; [now rewrite app_nil_r |]; split; [constructor |];
  left; split; [eexists; reflexivity |]; split; [| apply not_caught_nil].

Ltac rejected :=
  exists []; split; [now rewrite app_nil_r |]; split; [constructor |];
  right; split; [eexists; reflexivity |]; left.

Ltac faulted :=
  eexists [_]; split; [reflexivity |];
  split; [repeat constructor; eexists; reflexivity |];
  right; split; [eexists; reflexivity |]; right; apply caught_one.

(** The value is one of the advertised ones. *)
Ltac allowed := simpl; intros Hnot; apply Hnot; auto 10.

(** The value differs from each advertised one. *)
Ltac not_allowed :=
  simpl; intros Hin;
  repeat match goal with
         | H : _ \/ _ |- _ => destruct H as [H | H]
         end;
  try contradiction;
  match goal with
  | H : JStr _ = ?v |- _ => subst v; simpl in *; discriminate
  end.

Ltac default_of key name :=
  match goal with
  | |- context [match dict_get ?d key with Some x => x | None => ?dflt end] =>
      set (name := match dict_get d key with Some x => x | None => dflt end) in *;
      clearbody name
  end.

Lemma text_transform_outcome (host : Host) (arguments : json) (w : world) :
  handler_outcome
    (~ In (argument arguments "operation" (JStr ""))
          (allowed_values "text_transform" "operation"))
    (text_transform host arguments) w.
Proof.
  unfold handler_outcome, text_transform, argument.
  destruct arguments; try reflexivity.
  run_monad. default_of "text" text. default_of "operation" operation.
  repeat break_if.
  all: try (destruct text; simpl; first [reflexivity | succeeded; allowed]).
  rejected. not_allowed.
Qed.

Lemma calculate_outcome (host : Host) (arguments : json) (w : world) :
  handler_outcome
    (re_match_expression (argument arguments "expression" (JStr "")) = Return false)
    (calculate host arguments) w.
Proof.
  unfold handler_outcome, calculate, argument.
  destruct arguments; try reflexivity.
  run_monad. default_of "expression" expression.
  destruct expression; try reflexivity. simpl.
  destruct (match_class_plus false s); simpl.
  - destruct (py_eval host s); simpl.
    + succeeded. discriminate.
    + faulted.
  - rejected. reflexivity.
Qed.

Ltac break_result :=
  match goal with
  | |- context [match ?r with Return _ => _ | Raise _ => _ end] =>
      destruct r eqn:?; simpl
  end.

(** Case analysis on the innermost [match] of the goal. *)
Ltac break_match :=
  match goal with
  | |- context [match ?x with _ => _ end] =>
      lazymatch x with
      | context [match _ with _ => _ end] => fail
      | _ => destruct x eqn:?; simpl
      end
  end.

Ltac run_cases := run_monad; repeat (break_match; run_monad).

Lemma system_info_outcome (host : Host) (arguments : json) (w : world) :
  handler_outcome
    (~ In (argument arguments "info_type" (JStr ""))
          (allowed_values "system_info" "info_type"))
    (system_info host arguments) w.
Proof.
  unfold handler_outcome, system_info, argument.
  destruct arguments; try reflexivity.
  run_monad. default_of "info_type" info_type.
  repeat break_if; simpl.
  all: repeat break_result.
  all: first [succeeded; allowed | faulted | rejected; not_allowed].
Qed.

Lemma file_operations_outcome (host : Host) (arguments : json) (w : world) :
  handler_outcome
    (~ In (argument arguments "operation" (JStr ""))
          (allowed_values "file_operations" "operation"))
    (file_operations host arguments) w.
Proof.
  unfold handler_outcome, file_operations, argument.
  destruct arguments; try reflexivity.
  run_monad. default_of "operation" operation. default_of "path" path.
  default_of "content" content.
  repeat break_if; simpl.
  all: unfold os_path_isdir, os_path_isfile, os_path_exists, os_path_getsize, listdir,
         read_file, write_file, read_device, write_device; simpl.
  all: repeat break_match.
  all: first [succeeded; allowed | faulted | rejected; not_allowed].
Qed.

Lemma current_time_outcome (host : Host) (arguments : json) (w : world) :
  handler_outcome
    (~ In (argument arguments "format" (JStr "iso"))
          (allowed_values "current_time" "format"))
    (current_time host arguments) w.
Proof.
  unfold handler_outcome, current_time, argument.
  destruct arguments; try reflexivity.
  run_monad. default_of "format" format_type. default_of "custom_format" custom_format.
  repeat break_if; simpl.
  all: try (destruct (truthy custom_format);
            [unfold py_strftime; destruct custom_format |]; simpl).
  all: repeat break_result.
  all: first [succeeded; allowed | faulted | rejected; not_allowed].
Qed.

(** ** Outcome of the dispatcher *)

Lemma Return_inj {A} (a b : A) : Return a = Return b -> a = b.
Proof. congruence. Qed.

Lemma tools_contains_true (tool_name : json) :
  tools_contains tool_name = Return true -> registered tool_name.
Proof.
  unfold registered, tools_contains.
  destruct tool_name; try discriminate.
  intros H. apply Return_inj in H.
  apply List.existsb_exists in H as ([key d] & Hin & Heq).
  apply String.eqb_eq in Heq. simpl in Heq. subst s.
  unfold tools in Hin. simpl in Hin.
  repeat destruct Hin as [Hin | Hin]; try contradiction;
    injection Hin as <- _; auto 10.
Qed.

Lemma registered_contains (tool_name : json) :
  registered tool_name -> tools_contains tool_name = Return true.
Proof.
  unfold registered. intros H.
  repeat destruct H as [H | H]; subst tool_name; reflexivity.
Qed.

Lemma tools_contains_false (tool_name : json) :
  tools_contains tool_name = Return false -> ~ registered tool_name.
Proof.
  intros H Hreg. unfold registered in Hreg.
  repeat destruct Hreg as [Hreg | Hreg]; subst tool_name;
    vm_compute in H; discriminate H.
Qed.

Lemma tools_contains_raise (tool_name : json) (e : exn) :
  tools_contains tool_name = Raise e -> hashable tool_name = false.
Proof. destruct tool_name; simpl; congruence. Qed.

Lemma registered_descriptor (tool_name : json) :
  registered tool_name <->
  exists d, In d (map snd tools) /\ descriptor_name d = Some tool_name.
Proof.
  split.
  - intros H.
    assert (Hin : In (Some tool_name) (map descriptor_name (map snd tools))).
    { rewrite registry_names. unfold registered in H.
      repeat destruct H as [H | H]; subst tool_name; simpl; auto 10. }
    apply List.in_map_iff in Hin as (d & Hname & Hin). eauto.
  - intros (d & Hin & Hname).
    apply (List.in_map descriptor_name) in Hin.
    rewrite Hname, registry_names in Hin. simpl in Hin. unfold registered.
    repeat destruct Hin as [Hin | Hin]; try contradiction;
      injection Hin as <-; auto 10.
Qed.

Lemma caught_skip (ev : event) (evs : list event) :
  (forall e, ev <> EvCaught e) -> caught (ev :: evs) <-> caught evs.
Proof.
  intros Hev. unfold caught. split.
  - intros [e [H | H]]; [now apply Hev in H | eauto].
  - intros [e H]. exists e. now right.
Qed.

Lemma caught_snoc (evs : list event) (e : exn) : caught (evs ++ [EvCaught e]).
Proof. exists e. apply in_or_app. right. now left. Qed.

Lemma call_tool_outcome (host : Host) (tool_name arguments : json) (w : world) :
  registered tool_name ->
  exists r w' evs,
    call_tool host tool_name arguments w = (Return r, w')
    /\ trace w' = trace w ++ EvCallTool tool_name arguments :: evs
    /\ Forall (fun ev => exists e, ev = EvCaught e) evs
    /\ flagged (validation_failure tool_name arguments \/ caught evs) r.
Proof.
  intros Hreg. unfold registered in Hreg.
  repeat destruct Hreg as [Hreg | Hreg]; subst tool_name;
    unfold call_tool; run_monad;
    match goal with
    | |- context [text_transform host arguments ?w0] =>
        pose proof (text_transform_outcome host arguments w0) as Hout;
        unfold handler_outcome in Hout;
        destruct (text_transform host arguments w0) as [[r | e] w']
    | |- context [calculate host arguments ?w0] =>
        pose proof (calculate_outcome host arguments w0) as Hout;
        unfold handler_outcome in Hout;
        destruct (calculate host arguments w0) as [[r | e] w']
    | |- context [system_info host arguments ?w0] =>
        pose proof (system_info_outcome host arguments w0) as Hout;
        unfold handler_outcome in Hout;
        destruct (system_info host arguments w0) as [[r | e] w']
    | |- context [file_operations host arguments ?w0] =>
        pose proof (file_operations_outcome host arguments w0) as Hout;
        unfold handler_outcome in Hout;
        destruct (file_operations host arguments w0) as [[r | e] w']
    | |- context [current_time host arguments ?w0] =>
        pose proof (current_time_outcome host arguments w0) as Hout;
        unfold handler_outcome in Hout;
        destruct (current_time host arguments w0) as [[r | e] w']
    end; simpl in Hout; run_monad.
  all: try (destruct Hout as (evs & Htrace & Hall & Hcase);
            exists r, w', evs; split; [reflexivity |];
            split; [rewrite Htrace, <- app_assoc; reflexivity |];
            split; [assumption |];
            unfold flagged, validation_failure; simpl;
            destruct Hcase as [(Hr & Hvalid & Hnone) | (Hr & Hbad)];
            [left; split; [assumption |]; intuition congruence
            | right; split; [assumption |]; intuition congruence]).
  all: eexists _, _, [EvCaught e]; split; [reflexivity |];
    split; [simpl; rewrite Hout, <- app_assoc; reflexivity |];
    split; [repeat constructor; eexists; reflexivity |];
    right; split; [eexists; reflexivity |]; right; apply caught_one.
Qed.

Lemma eq_str_ne (v : json) (s : string) : v <> JStr s -> eq_str v s = false.
Proof.
  intros H. destruct (eq_str v s) eqn:E; [| reflexivity].
  now apply eq_str_true in E.
Qed.

Lemma handle_request_outcome (host : Host) (request : json) (w : world) :
  request_method request <> JStr "tools/list" ->
  match handle_request host request w with
  | (Return r, w') =>
      exists evs,
        trace w' = trace w ++ EvDispatch request :: evs
        /\ flagged (dispatch_failed request evs) r
  | (Raise e, w') =>
      malformed request /\ trace w' = trace w ++ [EvDispatch request]
  end.
Proof.
  intros Hmethod. unfold handle_request.
  destruct request as [| | | | | | d];
    try (run_monad; split; [left; reflexivity | reflexivity]).
  unfold dispatch_failed, malformed,
    request_tool, request_arguments, request_params, request_method, argument in *.
  run_monad. simpl in Hmethod.
  default_of "method" method. default_of "params" params.
  rewrite (eq_str_ne _ _ Hmethod).
  destruct (eq_str method "tools/call") eqn:Hcall.
  - apply eq_str_true in Hcall. subst method.
    destruct params as [| | | | | | p];
      try (simpl; split; [right; split; [reflexivity | left; reflexivity] | reflexivity]).
    simpl. default_of "name" tool_name. default_of "arguments" arguments.
    destruct (tools_contains tool_name) as [[|] | e] eqn:Hreg; simpl.
    + apply tools_contains_true in Hreg.
      destruct (call_tool_outcome host tool_name arguments
                  (add_event (EvDispatch (JDict d)) w) Hreg)
        as (r & w' & evs & Hrun & Htrace & Hall & Hflag).
      rewrite Hrun. exists (EvCallTool tool_name arguments :: evs).
      split; [rewrite Htrace; simpl; now rewrite <- app_assoc |].
      assert (Hc : caught (EvCallTool tool_name arguments :: evs) <-> caught evs).
      { apply caught_skip. discriminate. }
      unfold flagged in *. rewrite Hc.
      destruct Hflag as [(Hr & Hok) | (Hr & Hbad)].
      * left. split; [assumption |].
        intros [H | [H | H]]; [congruence | tauto | tauto].
      * right. split; [assumption |]. tauto.
    + apply tools_contains_false in Hreg.
      exists []. split; [reflexivity |]. right. split; [eexists; reflexivity |].
      right. left. assumption.
    + apply tools_contains_raise in Hreg. split; [| reflexivity].
      right. split; [reflexivity |]. right. assumption.
  - exists []. split; [reflexivity |]. right. split; [eexists; reflexivity |].
    left. now apply eq_str_false.
Qed.

Lemma unknown_tool_unregistered (request : json) :
  unknown_tool request <-> ~ registered (request_tool request).
Proof.
  unfold unknown_tool. rewrite registered_descriptor. split.
  - intros H (d & Hin & Hname). now apply (H d).
  - intros H d Hin Hname. apply H. eauto.
Qed.

Lemma operation_failed_dispatch (request : json) (evs : list event) :
  request_method request <> JStr "tools/list" ->
  operation_failed request (EvDispatch request :: evs) <-> dispatch_failed request evs.
Proof.
  intros Hmethod. unfold operation_failed, dispatch_failed, unknown_method.
  rewrite unknown_tool_unregistered, caught_skip by discriminate. tauto.
Qed.

Lemma malformed_not_well_formed (request : json) :
  malformed request -> ~ well_formed request.
Proof.
  intros [H | (Hcall & H)] (H1 & H2); [congruence |].
  destruct (H2 Hcall) as [H3 H4]. destruct H as [H | H]; congruence.
Qed.

Lemma success_uniform (text : json) : uniform (success text) /\ is_error (success text) = false.
Proof.
  split; [| reflexivity].
  exists [text_item text], []. repeat split; [discriminate | | now left].
  constructor; [eexists; reflexivity | constructor].
Qed.

Lemma failure_uniform (msg : string) : uniform (failure msg) /\ is_error (failure msg) = true.
Proof.
  split; [| reflexivity].
  exists [text_item (JStr msg)], [("isError", JBool true)].
  repeat split; [discriminate | | now right].
  constructor; [eexists; reflexivity | constructor].
Qed.

Lemma handle_request_raises (host : Host) (request : json) (w : world) :
  malformed request ->
  exists e, handle_request host request w = (Raise e, add_event (EvDispatch request) w).
Proof.
  unfold malformed, request_tool, request_params, request_method, argument, handle_request.
  destruct request as [| | | | | | d];
    try (intros _; eexists; reflexivity).
  run_monad. default_of "method" method. default_of "params" params.
  intros [H | (-> & H)]; [discriminate |]. simpl.
  destruct params as [| | | | | | p]; try (eexists; reflexivity).
  simpl in *. default_of "name" tool_name.
  destruct H as [H | H]; [discriminate |].
  destruct tool_name; try discriminate; eexists; reflexivity.
Qed.

Lemma handle_request_call (host : Host) (request : json) (w : world) :
  request_method request = JStr "tools/call" ->
  is_mapping (request_params request) = true ->
  registered (request_tool request) ->
  handle_request host request w
  = call_tool host (request_tool request) (request_arguments request)
      (add_event (EvDispatch request) w).
Proof.
  unfold request_tool, request_arguments, request_params, request_method, argument.
  destruct request as [| | | | | | d]; try discriminate.
  unfold handle_request. run_monad.
  default_of "method" method. default_of "params" params.
  intros -> Hparams. destruct params as [| | | | | | p]; try discriminate.
  simpl. default_of "name" tool_name. default_of "arguments" arguments.
  intros Hreg. now rewrite (registered_contains _ Hreg).
Qed.

Lemma current_time_usage (host : Host) (arguments : json) (w : world) :
  argument arguments "format" (JStr "iso") = JStr "custom" ->
  truthy (argument arguments "custom_format" (JStr "")) = false ->
  current_time host arguments w
  = (Return (success (JStr format_required_message)), after_clock_read w).
Proof.
  unfold argument, current_time.
  destruct arguments as [| | | | | | d]; try discriminate.
  run_monad. default_of "format" format_type. default_of "custom_format" custom_format.
  intros -> Hfalse. simpl. now rewrite Hfalse.
Qed.

Lemma write_effect (host : Host) (arguments : json) (w : world) (path content : string) :
  argument arguments "operation" (JStr "") = JStr "write" ->
  argument arguments "path" (JStr "") = JStr path ->
  argument arguments "content" (JStr "") = JStr content ->
  fs w !! path <> Some Special ->
  match file_operations host arguments w with
  | (Return response, w') =>
      is_error response = false -> fs w' !! path = Some (stored host content)
  | (Raise e, w') => True
  end.
Proof.
  unfold argument, file_operations, stored.
  destruct arguments as [| | | | | | d]; try discriminate.
  run_monad. default_of "operation" operation. default_of "path" p.
  default_of "content" c.
  intros -> -> -> Hspecial. simpl. unfold write_file.
  destruct (open_w_fault host path); simpl; [discriminate |].
  destruct (fs w !! path) as [[| data |] |] eqn:Hnode; simpl;
    try discriminate; try contradiction.
  all: destruct (write_fault host path content) as [[e remains] |]; simpl;
    try discriminate; intros _; apply lookup_insert_eq.
Qed.




Example sample_call_response :
  fst (handle_request sample_host sample_call empty_world)
  = Return (success (JStr "2 + 3 * 4 = 14")).
Proof. reflexivity. Qed.

(** ** What the trace records *)

Lemma guarded_trace (invalid : Prop) (m : M json) (handler : exn -> json) (w : world) :
  handler_outcome invalid m w ->
  exists evs,
    trace (snd (try_except m (fun e => ret (handler e)) w)) = trace w ++ evs.
Proof.
  unfold handler_outcome, try_except. run_monad.
  destruct (m w) as [[r | e] w']; simpl.
  - intros (evs & Htrace & _). eauto.
  - intros ->. eauto.
Qed.

Lemma call_tool_logs (host : Host) (tool_name arguments : json) (w : world) :
  exists evs,
    trace (snd (call_tool host tool_name arguments w))
    = trace w ++ EvCallTool tool_name arguments :: evs.
Proof.
  unfold call_tool.
  unfold bind at 1. unfold log at 1. 
  set (w0 := add_event (EvCallTool tool_name arguments) w).
  assert (H0 : trace w0 = trace w ++ [EvCallTool tool_name arguments]) by reflexivity.
  enough (exists evs,
            trace (snd (try_except
              (if eq_str tool_name "text_transform" then text_transform host arguments
               else if eq_str tool_name "calculate" then calculate host arguments
               else if eq_str tool_name "system_info" then system_info host arguments
               else if eq_str tool_name "file_operations" then file_operations host arguments
               else if eq_str tool_name "current_time" then current_time host arguments
               else ret (failure ("Tool not implemented: " +:+ py_str host tool_name)))
              (fun e => ret (failure ("Error executing tool " +:+ py_str host tool_name
                                      +:+ ": " +:+ exn_msg e))) w0))
            = trace w0 ++ evs) as [evs Hevs].
  { exists evs. rewrite Hevs, H0, <- app_assoc. reflexivity. }
  repeat match goal with
         | |- context [if eq_str tool_name ?s then _ else _] =>
             destruct (eq_str tool_name s)
         end.
  - eapply guarded_trace, text_transform_outcome.
  - eapply guarded_trace, calculate_outcome.
  - eapply guarded_trace, system_info_outcome.
  - eapply guarded_trace, file_operations_outcome.
  - eapply guarded_trace, current_time_outcome.
  - exists []. now rewrite app_nil_r.
Qed.

Lemma handle_request_logs (host : Host) (request : json) (w : world) :
  exists evs,
    trace (snd (handle_request host request w)) = trace w ++ EvDispatch request :: evs.
Proof.
  destruct (eq_str (request_method request) "tools/list") eqn:Hm.
  - apply eq_str_true in Hm.
    destruct request as [| | | | | | d]; try discriminate.
    rewrite (handle_tools_list host w d).
    + exists []. reflexivity.
    + unfold tools_list_request. unfold request_method, argument in Hm. simpl in Hm.
      destruct (dict_get d "method"); congruence.
  - apply eq_str_false in Hm.
    pose proof (handle_request_outcome host request w Hm) as Hout.
    destruct (handle_request host request w) as [[r | e] w']; simpl.
    + destruct Hout as (evs & Htrace & _). eauto.
    + destruct Hout as (_ & Htrace). eauto.
Qed.

(** ** tools/call without a tool name *)

(** C10: a [tools/call] request whose [params] has no [name], or that
    has no [params], is answered by the error response "Unknown tool: None";
    the dispatcher returns, and the trace gains the dispatch alone, whereas
    every entry into [call_tool] leaves its event in the trace. *)
Theorem call_without_name_is_unknown_tool (host : Host) (w : world)
    (d : list (string * json)) :
  dict_get d "method" = Some (JStr "tools/call") ->
  names_no_tool d ->
  handle_request host (JDict d) w
    = (Return (failure "Unknown tool: None"), add_event (EvDispatch (JDict d)) w)
  /\ is_error (failure "Unknown tool: None") = true
  /\ trace (add_event (EvDispatch (JDict d)) w) = trace w ++ [EvDispatch (JDict d)]
  /\ (forall tool_name arguments w0,
        In (EvCallTool tool_name arguments)
           (trace (snd (call_tool host tool_name arguments w0)))).
Proof.
  intros Hmethod Hname. split; [| split; [reflexivity | split; [reflexivity |]]].
  - unfold handle_request. run_monad. rewrite Hmethod.
    destruct Hname as [-> | (p & -> & Hp)]; simpl; [reflexivity |].
    now rewrite Hp.
  - intros tool_name arguments w0.
    destruct (call_tool_logs host tool_name arguments w0) as [evs ->].
    apply in_or_app. right. now left.
Qed.

Lemma call_without_name_is_unknown_tool_witness :
  dict_get [("method", JStr "tools/call"); ("params", JDict [("arguments", JDict [])])]
    "method" = Some (JStr "tools/call")
  /\ names_no_tool [("method", JStr "tools/call"); ("params", JDict [("arguments", JDict [])])]
  /\ handle_request sample_host
       (JDict [("method", JStr "tools/call"); ("params", JDict [("arguments", JDict [])])])
       empty_world
     = (Return (failure "Unknown tool: None"),
        add_event
          (EvDispatch
             (JDict [("method", JStr "tools/call");
                     ("params", JDict [("arguments", JDict [])])]))
          empty_world)
  /\ is_error (failure "Unknown tool: None") = true
  /\ trace (add_event
              (EvDispatch
                 (JDict [("method", JStr "tools/call");
                         ("params", JDict [("arguments", JDict [])])]))
              empty_world)
     = trace empty_world
       ++ [EvDispatch
             (JDict [("method", JStr "tools/call");
                     ("params", JDict [("arguments", JDict [])])])]
  /\ (forall tool_name arguments w0,
        In (EvCallTool tool_name arguments)
           (trace (snd (call_tool sample_host tool_name arguments w0)))).
Proof.
  split; [reflexivity |].
  split; [right; exists [("arguments", JDict [])]; split; reflexivity |].
  apply (call_without_name_is_unknown_tool sample_host empty_world
           [("method", JStr "tools/call"); ("params", JDict [("arguments", JDict [])])]).
  - reflexivity.
  - right. exists [("arguments", JDict [])]. split; reflexivity.
Defined.

(** ** The transport loop *)

Lemma eqb_nonempty (line : string) : line <> "" -> String.eqb line "" = false.
Proof. intros H. apply String.eqb_neq. exact H. Qed.

Lemma run_iteration_invalid (host : Host) (w : world) (line : string)
    (rest : list (result string)) (e : exn) :
  healthy (io w) ->
  stdin (io w) = Return line :: rest ->
  line <> "" ->
  json_loads host (py_strip line) = Raise e ->
  exn_kind e = JSONDecodeError ->
  run_iteration host w = (Return true, after_invalid_line w rest e).
Proof.
  intros [Hin Hout] Hline Hne Hparse Hkind.
  unfold run_iteration, readline. run_monad.
  rewrite Hin, Hline. simpl. rewrite (eqb_nonempty _ Hne), Hparse. simpl.
  unfold print, run_except. run_monad. rewrite Hout, Hkind. reflexivity.
Qed.

Lemma run_iteration_break (host : Host) (w : world) :
  fst (run_iteration host w) = Return false <-> at_end_of_stream (io w).
Proof.
  unfold at_end_of_stream, run_iteration, readline, print. run_monad.
  destruct (stdin_closed (io w)) as [e |].
  - split; [| intros [H _]; discriminate].
    run_cases; discriminate.
  - destruct (stdin (io w)) as [| [line | e] rest]; run_monad.
    + split; [auto | reflexivity].
    + destruct (String.eqb line "") eqn:Hline; run_monad.
      * apply String.eqb_eq in Hline. subst line. split; [eauto | reflexivity].
      * assert (Hne : line <> "") by (intros ->; discriminate).
        split; [| intros [_ [H | [rest0 H]]]; [discriminate | congruence]].
        run_cases; discriminate.
    + split; [| intros [_ [H | [rest0 H]]]; discriminate].
      run_cases; discriminate.
Qed.

(** An exception leaves the loop only from a [print] on a closed standard
    output. *)
Lemma run_iteration_escape (host : Host) (w w' : world) (e : exn) :
  run_iteration host w = (Raise e, w') -> stdout_closed (io w') = Some e.
Proof.
  unfold run_iteration, try_except.
  match goal with
  | |- context [match ?body w with _ => _ end] => destruct (body w) as [[b | e0] w1]
  end; [discriminate |].
  unfold print. run_monad.
  destruct (stdout_closed (io w1)) as [e1 |] eqn:Hclosed; simpl; [| discriminate].
  intros H. injection H as <- <-. simpl. exact Hclosed.
Qed.

Lemma run_loop_invalid (host : Host) (lines : list string) :
  forall w,
    healthy (io w) ->
    stdin (io w) = map Return lines ->
    Forall (rejected_line host) lines ->
    exists w',
      run_loop host (S (length lines)) w = Some (Return tt, w')
      /\ stdin (io w') = []
      /\ stdout (io w') = stdout (io w) ++ invalid_responses lines.
Proof.
  induction lines as [| line lines IH]; intros w Hhealthy Hin Hall.
  - exists w. simpl in Hin. split; [| split; [assumption | now rewrite app_nil_r]].
    destruct Hhealthy as [Hclosed _].
    simpl. unfold run_iteration, readline. run_monad. now rewrite Hclosed, Hin.
  - apply Forall_cons_iff in Hall as [(Hne & e & Hparse & Hkind) Hall].
    simpl in Hin.
    pose proof (run_iteration_invalid host w line (map Return lines) e
                  Hhealthy Hin Hne Hparse Hkind) as Hstep.
    destruct (IH (after_invalid_line w (map Return lines) e)) as (w' & Hrun & Hend & Hout);
      [exact Hhealthy | reflexivity | assumption |].
    exists w'. split; [| split; [assumption |]].
    + change (run_loop host (S (length (line :: lines))) w)
        with (match run_iteration host w with
              | (Return true, w1) => run_loop host (S (length lines)) w1
              | (Return false, w1) => Some (Return tt, w1)
              | (Raise e1, w1) => Some (Raise e1, w1)
              end).
      now rewrite Hstep.
    + rewrite Hout. simpl. now rewrite <- app_assoc.
Qed.

(** C3, as amended: on healthy streams, a line on which [json.loads]
    raises [JSONDecodeError] makes one pass of the loop print the single
    response "Invalid JSON request" with [isError] true; the trace gains the
    caught exception and no dispatch, whereas every dispatch is logged; the
    loop goes on with the rest of the input, so that an input of such lines
    is answered line by line until its end.  A pass breaks exactly when
    [readline] reports the end of the stream, and an exception leaves the
    loop only from a [print] on a closed standard output. *)
Theorem invalid_json_line_is_reported (host : Host) (w : world) (line : string)
    (rest : list (result string)) (e : exn) :
  healthy (io w) ->
  stdin (io w) = Return line :: rest ->
  line <> "" ->
  json_loads host (py_strip line) = Raise e ->
  exn_kind e = JSONDecodeError ->
  run_iteration host w = (Return true, after_invalid_line w rest e)
  /\ stdout (io (after_invalid_line w rest e))
     = stdout (io w) ++ [Printed invalid_json_response]
  /\ stdin (io (after_invalid_line w rest e)) = rest
  /\ trace (after_invalid_line w rest e) = trace w ++ [EvCaught e]
  /\ (forall request w0,
        In (EvDispatch request) (trace (snd (handle_request host request w0))))
  /\ (forall fuel,
        run_loop host (S fuel) w = run_loop host fuel (after_invalid_line w rest e))
  /\ (forall lines w0,
        healthy (io w0) ->
        stdin (io w0) = map Return lines ->
        Forall (rejected_line host) lines ->
        exists w',
          run host w0 = Some (Return tt, w')
          /\ stdin (io w') = []
          /\ stdout (io w') = stdout (io w0) ++ invalid_responses lines)
  /\ (forall w0, fst (run_iteration host w0) = Return false <-> at_end_of_stream (io w0))
  /\ (forall w0 w0' e0,
        run_iteration host w0 = (Raise e0, w0') -> stdout_closed (io w0') = Some e0).
Proof.
  intros Hhealthy Hin Hne Hparse Hkind.
  pose proof (run_iteration_invalid host w line rest e Hhealthy Hin Hne Hparse Hkind) as Hstep.
  split; [assumption |]. split; [reflexivity |]. split; [reflexivity |].
  split; [reflexivity |].
  split.
  { intros request w0. destruct (handle_request_logs host request w0) as [evs ->].
    apply in_or_app. right. now left. }
  split; [intros fuel; simpl; now rewrite Hstep |].
  split.
  - intros lines w0 Hh Hlines Hall. unfold run. rewrite Hlines, length_map.
    now apply run_loop_invalid.
  - split; [apply run_iteration_break | apply run_iteration_escape].
Qed.

Lemma invalid_json_line_is_reported_witness :
  healthy (io (reading sample_lines empty_world))
  /\ "{not json" +:+ nl <> ""
  /\ json_loads sample_host (py_strip ("{not json" +:+ nl)) = Raise sample_decode_error
  /\ exn_kind sample_decode_error = JSONDecodeError
  /\ run_iteration sample_host (reading sample_lines empty_world)
     = (Return true,
        after_invalid_line (reading sample_lines empty_world)
          [Return ("{}" +:+ nl)] sample_decode_error).
Proof.
  split; [split; reflexivity |]. split; [discriminate |].
  split; [reflexivity |]. split; [reflexivity |].
  apply (invalid_json_line_is_reported sample_host
           (reading sample_lines empty_world)
           ("{not json" +:+ nl) [Return ("{}" +:+ nl)] sample_decode_error).
  - split; reflexivity.
  - reflexivity.
  - discriminate.
  - reflexivity.
  - reflexivity.
Defined.

(** Two inputs at which the claim fails.  The line [NaN] is not valid
    JSON, yet [json.loads] accepts it: the dispatcher is invoked and the
    answer is a server error.  And after a request that writes through
    descriptor 1, standard output is closed: the [print] of the response
    and the one of the [except] clause both raise, and the loop is left
    with a line unread and no response printed. *)
Lemma loop_dispatches_nan_and_can_stop_early :
  valid_json nan_line = false
  /\ (exists w',
        run_iteration sample_host (reading [nan_line] empty_world) = (Return true, w')
        /\ stdout (io w')
           = [Printed (failure "Server error: 'float' object has no attribute 'get'")]
        /\ In (EvDispatch (JFloat float_nan)) (trace w'))
  /\ (exists w',
        run sample_host (reading descriptor_input empty_world)
        = Some (Raise bad_descriptor, w')
        /\ stdin (io w') = [Return ("{}" +:+ nl)]
        /\ stdout (io w') = [Written "x"]).
Proof.
  split; [vm_compute; reflexivity |]. split.
  - eexists. split; [vm_compute; reflexivity |]. split; [reflexivity |].
    simpl. auto.
  - eexists. split; [vm_compute; reflexivity |]. split; reflexivity.
Qed.

Example run_two_lines :
  option_map (fun r => stdout (io (snd r)))
    (run sample_host (reading sample_lines empty_world))
  = Some [Printed invalid_json_response; Printed (failure "Unknown method: None")].
Proof. vm_compute. reflexivity. Qed.

(** ** Further properties of the dispatcher *)

Lemma tools_contains_hashable (tool_name : json) :
  hashable tool_name = true -> ~ registered tool_name ->
  tools_contains tool_name = Return false.
Proof.
  intros Hhash Hreg.
  destruct (tools_contains tool_name) as [[|] | e] eqn:H.
  - now apply tools_contains_true in H.
  - reflexivity.
  - apply tools_contains_raise in H. congruence.
Qed.

(** X1: a [tools/call] request whose tool name is a value that can be
    looked up and that is not one of the registered names is answered by
    the error response "Unknown tool: <name>"; only the dispatch is logged. *)
Theorem unregistered_tool_is_named (host : Host) (w : world)
    (d p : list (string * json)) (tool_name : json) :
  dict_get d "method" = Some (JStr "tools/call") ->
  dict_get d "params" = Some (JDict p) ->
  dict_get p "name" = Some tool_name ->
  hashable tool_name = true ->
  ~ registered tool_name ->
  handle_request host (JDict d) w
  = (Return (failure ("Unknown tool: " +:+ py_str host tool_name)),
     add_event (EvDispatch (JDict d)) w).
Proof.
  intros Hm Hp Hn Hhash Hreg. unfold handle_request. run_monad.
  rewrite Hm, Hp. simpl. rewrite Hn.
  now rewrite (tools_contains_hashable tool_name Hhash Hreg).
Qed.

Lemma unregistered_tool_is_named_witness :
  ~ registered (JStr "frobnicate")
  /\ handle_request sample_host
       (JDict [("method", JStr "tools/call");
               ("params", JDict [("name", JStr "frobnicate")])])
       empty_world
     = (Return (failure "Unknown tool: frobnicate"),
        add_event
          (EvDispatch (JDict [("method", JStr "tools/call");
                              ("params", JDict [("name", JStr "frobnicate")])]))
          empty_world).
Proof.
  split; [unfold registered; intuition discriminate |].
  apply (unregistered_tool_is_named sample_host empty_world
           [("method", JStr "tools/call"); ("params", JDict [("name", JStr "frobnicate")])]
           [("name", JStr "frobnicate")] (JStr "frobnicate")).
  - reflexivity.
  - reflexivity.
  - reflexivity.
  - reflexivity.
  - unfold registered. intuition discriminate.
Defined.

(** X2: a request that is a mapping and whose method is neither
    [tools/list] nor [tools/call] (a missing method reads as None) is
    answered by the error response "Unknown method: <method>", whatever
    [params] holds; only the dispatch is logged. *)
Theorem unknown_method_is_named (host : Host) (w : world) (d : list (string * json)) :
  request_method (JDict d) <> JStr "tools/list" ->
  request_method (JDict d) <> JStr "tools/call" ->
  handle_request host (JDict d) w
  = (Return (failure ("Unknown method: " +:+ py_str host (request_method (JDict d)))),
     add_event (EvDispatch (JDict d)) w).
Proof.
  intros Hl Hc. unfold handle_request, request_method, argument in *.
  run_monad. simpl in Hl, Hc.
  now rewrite (eq_str_ne _ _ Hl), (eq_str_ne _ _ Hc).
Qed.

Lemma unknown_method_is_named_witness :
  handle_request sample_host (JDict [("method", JStr "tools/run"); ("params", JInt 7)])
    empty_world
  = (Return (failure "Unknown method: tools/run"),
     add_event (EvDispatch (JDict [("method", JStr "tools/run"); ("params", JInt 7)]))
       empty_world).
Proof.
  apply (unknown_method_is_named sample_host empty_world
           [("method", JStr "tools/run"); ("params", JInt 7)]).
  - discriminate.
  - discriminate.
Defined.

Lemma guarded_returns (invalid : Prop) (m : M json) (message : exn -> string) (w : world) :
  handler_outcome invalid m w ->
  exists r w',
    try_except m (fun e => ret (failure (message e))) w = (Return r, w') /\ uniform r.
Proof.
  unfold handler_outcome, try_except. run_monad.
  destruct (m w) as [[r | e] w']; simpl.
  - intros (evs & _ & _ & [([text ->] & _) | ([msg ->] & _)]).
    + eexists _, _. split; [reflexivity | apply success_uniform].
    + eexists _, _. split; [reflexivity | apply failure_uniform].
  - intros _. eexists _, _. split; [reflexivity | apply failure_uniform].
Qed.

(** X3: [call_tool] never raises: for every tool name and every value
    passed as arguments it returns a uniform response. *)
Theorem call_tool_always_answers (host : Host) (tool_name arguments : json) (w : world) :
  exists r w', call_tool host tool_name arguments w = (Return r, w') /\ uniform r.
Proof.
  unfold call_tool. unfold bind at 1. unfold log at 1.
  repeat match goal with
         | |- context [if eq_str tool_name ?s then _ else _] =>
             destruct (eq_str tool_name s)
         end.
  - eapply guarded_returns, text_transform_outcome.
  - eapply guarded_returns, calculate_outcome.
  - eapply guarded_returns, system_info_outcome.
  - eapply guarded_returns, file_operations_outcome.
  - eapply guarded_returns, current_time_outcome.
  - eexists _, _. split; [reflexivity | apply failure_uniform].
Qed.

(** X4: when the arguments of a registered tool are not a mapping, the
    [AttributeError] of the first [arguments.get] is caught by [call_tool]
    and reported as "Error executing tool <name>: '<type>' object has no
    attribute 'get'". *)
Theorem arguments_not_a_mapping (host : Host) (tool_name arguments : json) (w : world) :
  registered tool_name ->
  is_mapping arguments = false ->
  call_tool host tool_name arguments w
  = (Return (failure ("Error executing tool " +:+ py_str host tool_name +:+ ": '"
                      +:+ type_name arguments +:+ "' object has no attribute 'get'")),
     add_event (EvCaught (no_attribute arguments "get"))
       (add_event (EvCallTool tool_name arguments) w)).
Proof.
  intros Hreg Hmap. unfold registered in Hreg.
  repeat destruct Hreg as [Hreg | Hreg]; subst tool_name;
    destruct arguments; try discriminate; reflexivity.
Qed.

Lemma arguments_not_a_mapping_witness :
  call_tool sample_host (JStr "calculate") (JList []) empty_world
  = (Return (failure "Error executing tool calculate: 'list' object has no attribute 'get'"),
     add_event (EvCaught (no_attribute (JList []) "get"))
       (add_event (EvCallTool (JStr "calculate") (JList [])) empty_world)).
Proof.
  apply (arguments_not_a_mapping sample_host (JStr "calculate") (JList []) empty_world).
  - unfold registered. auto.
  - reflexivity.
Defined.

Lemma enumerated_cases (tool key : string) (default : json) (prefix : string) :
  enumerated_argument tool = Some (key, default, prefix) ->
  (tool = "text_transform" /\ key = "operation" /\ default = JStr "" /\ prefix = "Unknown operation: ")
  \/ (tool = "system_info" /\ key = "info_type" /\ default = JStr "" /\ prefix = "Unknown info type: ")
  \/ (tool = "file_operations" /\ key = "operation" /\ default = JStr "" /\ prefix = "Unknown operation: ")
  \/ (tool = "current_time" /\ key = "format" /\ default = JStr "iso" /\ prefix = "Unknown format type: ").
Proof.
  unfold enumerated_argument.
  destruct (String.eqb tool "text_transform") eqn:E1;
    [apply String.eqb_eq in E1; intros Heq; injection Heq as <- <- <-; auto 10 |].
  destruct (String.eqb tool "system_info") eqn:E2;
    [apply String.eqb_eq in E2; intros Heq; injection Heq as <- <- <-; auto 10 |].
  destruct (String.eqb tool "file_operations") eqn:E3;
    [apply String.eqb_eq in E3; intros Heq; injection Heq as <- <- <-; auto 10 |].
  destruct (String.eqb tool "current_time") eqn:E4;
    [apply String.eqb_eq in E4; intros Heq; injection Heq as <- <- <-; auto 10 |].
  discriminate.
Qed.

(** X5: the four handlers that compare an argument with fixed values
    answer a value outside the values their schema advertises with their
    "Unknown ..." error naming the value. *)
Theorem value_outside_enum_is_rejected (host : Host) (w : world) (tool key prefix : string)
    (default : json) (d : list (string * json)) :
  enumerated_argument tool = Some (key, default, prefix) ->
  ~ In (argument (JDict d) key default) (allowed_values tool key) ->
  fst (call_tool host (JStr tool) (JDict d) w)
  = Return (failure (prefix +:+ py_str host (argument (JDict d) key default))).
Proof.
  intros Henum Hout.
  apply enumerated_cases in Henum
    as [(-> & -> & -> & ->) | [(-> & -> & -> & ->) | [(-> & -> & -> & ->) | (-> & -> & -> & ->)]]];
    unfold argument in *; simpl in Hout;
    unfold call_tool, text_transform, system_info, file_operations, current_time;
    run_monad.
  - default_of "operation" operation. default_of "text" text.
    repeat break_if; try (exfalso; apply Hout; auto 10; fail). reflexivity.
  - default_of "info_type" info_type.
    repeat break_if; try (exfalso; apply Hout; auto 10; fail). reflexivity.
  - default_of "operation" operation. default_of "path" path. default_of "content" content.
    repeat break_if; try (exfalso; apply Hout; auto 10; fail). reflexivity.
  - default_of "format" format_type. default_of "custom_format" custom_format.
    repeat break_if; try (exfalso; apply Hout; auto 10; fail). reflexivity.
Qed.

Lemma value_outside_enum_is_rejected_witness :
  fst (call_tool sample_host (JStr "system_info") (JDict [("info_type", JStr "gpu")])
         empty_world)
  = Return (failure "Unknown info type: gpu").
Proof.
  apply (value_outside_enum_is_rejected sample_host empty_world
           "system_info" "info_type" "Unknown info type: " (JStr "")
           [("info_type", JStr "gpu")]).
  - reflexivity.
  - simpl. intuition discriminate.
Defined.

(** X6: a name the dispatcher accepts has a handler: [call_tool] logs
    the call and runs that handler inside its [try], so the branch "Tool
    not implemented" is not taken. *)
Theorem accepted_tool_has_handler (host : Host) (tool_name : json) :
  tools_contains tool_name = Return true ->
  exists tool handler,
    tool_name = JStr tool
    /\ handler_of host tool = Some handler
    /\ forall arguments w,
         call_tool host tool_name arguments w
         = (x <- log (EvCallTool tool_name arguments) ;;
            try_except (handler arguments)
              (fun e => ret (failure ("Error executing tool " +:+ tool
                                      +:+ ": " +:+ exn_msg e)))) w.
Proof.
  intros H. apply tools_contains_true in H. unfold registered in H.
  repeat destruct H as [H | H]; subst tool_name;
    eexists _, _; (split; [reflexivity |]); (split; [reflexivity |]);
    intros arguments w; reflexivity.
Qed.

Lemma accepted_tool_has_handler_witness :
  exists tool handler,
    JStr "current_time" = JStr tool
    /\ handler_of sample_host tool = Some handler
    /\ forall arguments w,
         call_tool sample_host (JStr "current_time") arguments w
         = (x <- log (EvCallTool (JStr "current_time") arguments) ;;
            try_except (handler arguments)
              (fun e => ret (failure ("Error executing tool " +:+ tool
                                      +:+ ": " +:+ exn_msg e)))) w.
Proof.
  apply (accepted_tool_has_handler sample_host (JStr "current_time")).
  reflexivity.
Defined.

Lemma py_get_with_default (d : list (string * json)) (key read : string)
    (default other : json) :
  dict_get d key = None ->
  In (key, default) argument_defaults ->
  In (read, other) argument_defaults ->
  py_get (JDict ((key, default) :: d)) read other = py_get (JDict d) read other.
Proof.
  intros Hnone Hkey Hread. simpl.
  destruct (String.eqb key read) eqn:Heq; [| reflexivity].
  apply String.eqb_eq in Heq. subst read. rewrite Hnone.
  unfold argument_defaults in *. simpl in Hkey, Hread.
  repeat destruct Hkey as [Hkey | Hkey]; try contradiction;
    injection Hkey as <- <-;
    repeat destruct Hread as [Hread | Hread]; try contradiction;
    try discriminate; injection Hread as <-; reflexivity.
Qed.

Ltac defaults :=
  repeat match goal with
         | |- context [py_get (JDict ((?key, ?default) :: ?d)) ?read ?other] =>
             rewrite (py_get_with_default d key read default other);
             [| assumption | assumption | unfold argument_defaults; simpl; auto 10]
         end.

(** X7: leaving out an argument is the same as passing its default: for
    every handler and every key with a default, arguments without the key
    give the same result and the same world as the arguments with the key
    bound to the default. *)
Theorem omitted_argument_is_default (host : Host) (tool key : string) (default : json)
    (handler : json -> M json) (d : list (string * json)) (w : world) :
  handler_of host tool = Some handler ->
  In (key, default) argument_defaults ->
  dict_get d key = None ->
  handler (JDict d) w = handler (JDict ((key, default) :: d)) w.
Proof.
  intros Hhandler Hkey Hnone. unfold handler_of in Hhandler.
  repeat match type of Hhandler with
         | (if ?b then _ else _) = _ => destruct b
         end;
    try discriminate; injection Hhandler as <-;
    unfold text_transform, calculate, system_info, file_operations, current_time;
    defaults; reflexivity.
Qed.

Lemma omitted_argument_is_default_witness :
  current_time sample_host (JDict []) empty_world
  = current_time sample_host (JDict [("format", JStr "iso")]) empty_world.
Proof.
  apply (omitted_argument_is_default sample_host "current_time" "format" (JStr "iso")
           (current_time sample_host) [] empty_world).
  - reflexivity.
  - unfold argument_defaults. simpl. auto 10.
  - reflexivity.
Defined.

(** X8: the dispatcher accepts a tool name exactly when [tools/list]
    advertises a descriptor with that name; every descriptor is stored
    under its own name and requires only properties that it declares. *)
Theorem registry_is_consistent :
  (forall tool_name,
      tools_contains tool_name = Return true
      <-> exists d, In d (map snd tools) /\ descriptor_name d = Some tool_name)
  /\ Forall consistent_entry tools.
Proof.
  split.
  - intros tool_name. rewrite <- registered_descriptor. split.
    + apply tools_contains_true.
    + apply registered_contains.
  - unfold tools.
    repeat (apply Forall_cons; split;
            [split; [reflexivity |];
             intros key Hin; vm_compute in Hin;
             repeat destruct Hin as [Hin | Hin]; try contradiction;
             injection Hin as <-; eexists; reflexivity |]).
    apply Forall_nil_2.
Qed.

(** ** Further properties of text_transform *)

(** X9: [reverse] applied to a JSON list succeeds with the reversed
    list as the text of the response, which is then not a string; applied
    again it gives the list back. *)
Theorem reverse_of_a_list (host : Host) (w : world) (items : list json) :
  text_transform host (text_arguments (JList items) "reverse") w
    = (Return (success (JList (rev items))), w)
  /\ text_transform host (text_arguments (JList (rev items)) "reverse") w
    = (Return (success (JList items)), w).
Proof.
  split; [reflexivity |].
  unfold text_transform, text_arguments. run_monad. now rewrite rev_involutive.
Qed.

Lemma remove_spaces_length (s : string) :
  (String.length (remove_spaces s) + count_spaces s)%nat = String.length s.
Proof.
  induction s as [| c s IH]; [reflexivity |].
  simpl. destruct (code c =? 32)%N; simpl; lia.
Qed.

(** X10: [count_chars] on a str reports its length and its length
    without spaces; the two differ by the number of space characters. *)
Theorem count_chars_accounts_for_spaces (host : Host) (w : world) (text : string) :
  exists including excluding : nat,
    text_transform host (transform_arguments text "count_chars") w
    = (Return (success (JStr ("Character count: " +:+ str_of_nat including
                              +:+ " (including spaces), " +:+ str_of_nat excluding
                              +:+ " (excluding spaces)"))), w)
    /\ including = String.length text
    /\ (excluding + count_spaces text)%nat = including.
Proof.
  exists (String.length text), (String.length (remove_spaces text)).
  split; [reflexivity |]. split; [reflexivity | apply remove_spaces_length].
Qed.

Lemma count_tokens_zero (s : string) :
  count_tokens false s = 0%nat <-> is_blank s = true.
Proof.
  unfold is_blank. induction s as [| c s IH]; simpl; [tauto |].
  destruct (is_space c); simpl; [exact IH |].
  split; discriminate.
Qed.

Lemma count_tokens_join (flag : bool) (a b : string) :
  count_tokens flag (a +:+ space +:+ b)
  = (count_tokens flag a + count_tokens false b)%nat.
Proof.
  revert flag. induction a as [| c a IH]; intros flag.
  - reflexivity.
  - rewrite append_cons. simpl.
    destruct (is_space c); [apply IH |].
    destruct flag; rewrite IH; reflexivity.
Qed.

(** X11: [count_words] reports zero exactly for a text of white space
    only (the empty text included), and joining two texts with a space adds
    their word counts. *)
Theorem count_words_counts_tokens (host : Host) (w : world) :
  (forall text, exists n : nat,
      text_transform host (transform_arguments text "count_words") w
      = (Return (success (JStr ("Word count: " +:+ str_of_nat n))), w)
      /\ (n = 0%nat <-> is_blank text = true))
  /\ (forall a b, exists m n : nat,
        text_transform host (transform_arguments a "count_words") w
        = (Return (success (JStr ("Word count: " +:+ str_of_nat m))), w)
        /\ text_transform host (transform_arguments b "count_words") w
        = (Return (success (JStr ("Word count: " +:+ str_of_nat n))), w)
        /\ text_transform host (transform_arguments (a +:+ space +:+ b) "count_words") w
        = (Return (success (JStr ("Word count: " +:+ str_of_nat (m + n)))), w)).
Proof.
  split.
  - intros text. exists (count_tokens false text).
    split; [reflexivity | apply count_tokens_zero].
  - intros a b. exists (count_tokens false a), (count_tokens false b).
    split; [reflexivity |]. split; [reflexivity |].
    unfold text_transform, transform_arguments. run_monad.
    unfold count_words. now rewrite count_tokens_join.
Qed.

Lemma upper_upper_char (c : ascii) : upper_char (upper_char c) = upper_char c.
Proof. all_chars c; reflexivity. Qed.

Lemma upper_lower_char (c : ascii) : upper_char (lower_char c) = upper_char c.
Proof. all_chars c; reflexivity. Qed.

Lemma lower_lower_char (c : ascii) : lower_char (lower_char c) = lower_char c.
Proof. all_chars c; reflexivity. Qed.

Lemma lower_char_ascii (c : ascii) : is_ascii_char (lower_char c) = is_ascii_char c.
Proof. all_chars c; reflexivity. Qed.

Lemma string_map_lower_ascii (s : string) :
  is_ascii (string_map lower_char s) = is_ascii s.
Proof.
  unfold is_ascii. induction s as [| c s IH]; simpl; [reflexivity |].
  now rewrite lower_char_ascii, IH.
Qed.

Lemma string_map_compose (f g h : ascii -> ascii) (s : string) :
  (forall c, f (g c) = h c) -> string_map f (string_map g s) = string_map h s.
Proof.
  intros H. induction s as [| c s IH]; simpl; [reflexivity |]. now rewrite H, IH.
Qed.

Lemma string_map_length (f : ascii -> ascii) (s : string) :
  String.length (string_map f s) = String.length s.
Proof. induction s as [| c s IH]; simpl; [reflexivity | now rewrite IH]. Qed.

Lemma transformed_uppercase (host : Host) (text : string) :
  is_ascii text = true ->
  transformed host "uppercase" text (string_map upper_char text).
Proof. intros H w. now apply text_transform_uppercase. Qed.

Lemma transformed_lowercase (host : Host) (text : string) :
  is_ascii text = true ->
  transformed host "lowercase" text (string_map lower_char text).
Proof. intros H w. now apply text_transform_lowercase. Qed.

(** X12: on ASCII text [uppercase] and [lowercase] are idempotent,
    each absorbs the other applied before it, and both keep the length. *)
Theorem case_transforms_absorb (host : Host) (text : string) :
  is_ascii text = true ->
  exists upper lower,
    transformed host "uppercase" text upper
    /\ transformed host "lowercase" text lower
    /\ transformed host "uppercase" upper upper
    /\ transformed host "lowercase" lower lower
    /\ transformed host "uppercase" lower upper
    /\ transformed host "lowercase" upper lower
    /\ String.length upper = String.length text
    /\ String.length lower = String.length text.
Proof.
  intros Hascii.
  assert (Hup : is_ascii (string_map upper_char text) = true)
    by now rewrite string_map_upper_ascii.
  assert (Hlow : is_ascii (string_map lower_char text) = true)
    by now rewrite string_map_lower_ascii.
  exists (string_map upper_char text), (string_map lower_char text).
  split; [now apply transformed_uppercase |].
  split; [now apply transformed_lowercase |].
  split.
  { pose proof (transformed_uppercase host _ Hup) as H.
    now rewrite (string_map_compose _ _ upper_char text upper_upper_char) in H. }
  split.
  { pose proof (transformed_lowercase host _ Hlow) as H.
    now rewrite (string_map_compose _ _ lower_char text lower_lower_char) in H. }
  split.
  { pose proof (transformed_uppercase host _ Hlow) as H.
    now rewrite (string_map_compose _ _ upper_char text upper_lower_char) in H. }
  split.
  { pose proof (transformed_lowercase host _ Hup) as H.
    now rewrite (string_map_compose _ _ lower_char text lower_upper_char) in H. }
  split; apply string_map_length.
Qed.

Lemma case_transforms_absorb_witness :
  is_ascii "Hello World" = true
  /\ exists upper lower,
       transformed sample_host "uppercase" "Hello World" upper
       /\ transformed sample_host "lowercase" "Hello World" lower
       /\ transformed sample_host "uppercase" upper upper
       /\ transformed sample_host "lowercase" lower lower
       /\ transformed sample_host "uppercase" lower upper
       /\ transformed sample_host "lowercase" upper lower
       /\ String.length upper = String.length "Hello World"
       /\ String.length lower = String.length "Hello World".
Proof.
  split; [reflexivity |].
  apply (case_transforms_absorb sample_host "Hello World").
  reflexivity.
Defined.

(** ** Further properties of calculate and current_time *)

(** X13: the allow-list accepts a str exactly when it is not empty and
    all its characters are digits, white space, parentheses, [+ - * /] or
    the decimal point: the leniency of [$] before a final line feed admits
    nothing else. *)
Theorem allow_list_is_nonempty_class (s : string) :
  re_match_expression (JStr s) = Return true
  <-> s <> "" /\ string_forallb in_class s = true.
Proof.
  simpl. split.
  - intros H. apply Return_inj in H. split.
    + intros ->. discriminate.
    + now apply match_class_plus_all in H.
  - intros [Hne Hall]. f_equal. destruct s as [| c s]; [contradiction |].
    simpl in *. apply andb_prop in Hall as [Hc Hs].
    now rewrite Hc, (match_class_plus_seen s Hs).
Qed.

(** X14: a missing or empty [expression] fails the allow-list, which
    asks for at least one character, and is answered by the "Invalid
    expression" error. *)
Theorem empty_expression_is_invalid (host : Host) (w : world) (d : list (string * json)) :
  dict_get d "expression" = None \/ dict_get d "expression" = Some (JStr "") ->
  calculate host (JDict d) w = (Return (failure invalid_expression), w).
Proof.
  intros [H | H]; unfold calculate; run_monad; rewrite H; reflexivity.
Qed.

Lemma empty_expression_is_invalid_witness :
  calculate sample_host (JDict []) empty_world
  = (Return (failure invalid_expression), empty_world).
Proof.
  apply (empty_expression_is_invalid sample_host empty_world []).
  left. reflexivity.
Defined.

(** X15: with [format] equal to ["custom"], any [custom_format] that
    counts as false (empty string, null, false, zero, empty list or
    mapping) gives the usage message as a success, and one that counts as
    true without being a str gives the error response with the
    [TypeError] of [strftime]; the clock is read once in both cases. *)
Theorem custom_format_by_truth_value (host : Host) (w : world)
    (d : list (string * json)) (custom_format : json) :
  dict_get d "format" = Some (JStr "custom") ->
  dict_get d "custom_format" = Some custom_format ->
  (truthy custom_format = false ->
   current_time host (JDict d) w
   = (Return (success (JStr format_required_message)), after_clock_read w))
  /\ (truthy custom_format = true -> is_str custom_format = false ->
      current_time host (JDict d) w
      = (Return (failure ("Error getting time: strftime() argument 1 must be str, not "
                          +:+ type_name custom_format)),
         add_event
           (EvCaught (mkExn TypeError ("strftime() argument 1 must be str, not "
                                       +:+ type_name custom_format)))
           (after_clock_read w))).
Proof.
  intros Hf Hc.
  split; intros Ht; [| intros Hs]; unfold current_time; run_monad;
    rewrite Hf, Hc; simpl; rewrite Ht.
  - reflexivity.
  - destruct custom_format; try discriminate; reflexivity.
Qed.

Lemma custom_format_by_truth_value_witness :
  (truthy (JInt 0) = false ->
   current_time sample_host
     (JDict [("format", JStr "custom"); ("custom_format", JInt 0)]) empty_world
   = (Return (success (JStr format_required_message)), after_clock_read empty_world))
  /\ (truthy (JInt 0) = true -> is_str (JInt 0) = false ->
      current_time sample_host
        (JDict [("format", JStr "custom"); ("custom_format", JInt 0)]) empty_world
      = (Return (failure ("Error getting time: strftime() argument 1 must be str, not "
                          +:+ type_name (JInt 0))),
         add_event
           (EvCaught (mkExn TypeError ("strftime() argument 1 must be str, not "
                                       +:+ type_name (JInt 0))))
           (after_clock_read empty_world))).
Proof.
  apply (custom_format_by_truth_value sample_host empty_world
           [("format", JStr "custom"); ("custom_format", JInt 0)] (JInt 0)).
  - reflexivity.
  - reflexivity.
Defined.

(** ** Further properties of the file system *)

Lemma keeps_files_guarded (m : M json) (handler : exn -> json) :
  keeps_files m -> keeps_files (try_except m (fun e => ret (handler e))).
Proof.
  unfold keeps_files, try_except. run_monad. intros H w. specialize (H w).
  destruct (m w) as [[r | e] w']; exact H.
Qed.

Lemma text_transform_keeps_files (host : Host) (arguments : json) :
  keeps_files (text_transform host arguments).
Proof.
  intros w. unfold text_transform. destruct arguments; try reflexivity.
  run_monad. default_of "text" text. default_of "operation" operation.
  repeat break_if; first [reflexivity | destruct text; reflexivity].
Qed.

Lemma calculate_keeps_files (host : Host) (arguments : json) :
  keeps_files (calculate host arguments).
Proof.
  intros w. unfold calculate. destruct arguments; try reflexivity.
  run_monad. default_of "expression" expression.
  destruct expression; try reflexivity. simpl.
  destruct (match_class_plus false s); simpl; [| reflexivity].
  destruct (py_eval host s); reflexivity.
Qed.

Lemma system_info_keeps_files (host : Host) (arguments : json) :
  keeps_files (system_info host arguments).
Proof.
  intros w. unfold system_info. destruct arguments; try reflexivity.
  run_monad. default_of "info_type" info_type.
  repeat break_if; simpl; repeat break_result; reflexivity.
Qed.

Lemma current_time_keeps_files (host : Host) (arguments : json) :
  keeps_files (current_time host arguments).
Proof.
  intros w. unfold current_time. destruct arguments; try reflexivity.
  run_monad. default_of "format" format_type. default_of "custom_format" custom_format.
  repeat break_if; simpl.
  all: try (destruct (truthy custom_format);
            [unfold py_strftime; destruct custom_format |]; simpl).
  all: repeat break_result; reflexivity.
Qed.

Lemma file_operations_keeps_files (host : Host) (arguments : json) (w : world) :
  argument arguments "operation" (JStr "") <> JStr "write" ->
  fs (snd (file_operations host arguments w)) = fs w.
Proof.
  unfold file_operations, argument. destruct arguments; try reflexivity.
  run_monad. default_of "operation" operation. default_of "path" path.
  default_of "content" content. intros Hop.
  repeat break_if; try congruence; simpl.
  all: unfold os_path_isdir, os_path_isfile, os_path_exists, os_path_getsize, listdir,
         read_file, read_device; simpl.
  all: repeat break_match; reflexivity.
Qed.

(** X16: only [file_operations] with operation ["write"] changes the
    file system: any other call of [call_tool], whatever its outcome,
    leaves every file as it was. *)
Theorem only_write_changes_files (host : Host) (tool_name arguments : json) (w : world) :
  tool_name <> JStr "file_operations"
  \/ argument arguments "operation" (JStr "") <> JStr "write" ->
  fs (snd (call_tool host tool_name arguments w)) = fs w.
Proof.
  intros Hnot. unfold call_tool. unfold bind at 1. unfold log at 1.
  set (w0 := add_event (EvCallTool tool_name arguments) w).
  change (fs w) with (fs w0).
  destruct (eq_str tool_name "text_transform");
    [apply keeps_files_guarded, text_transform_keeps_files |].
  destruct (eq_str tool_name "calculate");
    [apply keeps_files_guarded, calculate_keeps_files |].
  destruct (eq_str tool_name "system_info");
    [apply keeps_files_guarded, system_info_keeps_files |].
  destruct (eq_str tool_name "file_operations") eqn:Hfile.
  - apply eq_str_true in Hfile. destruct Hnot as [Hnot | Hnot]; [contradiction |].
    unfold try_except. run_monad.
    pose proof (file_operations_keeps_files host arguments w0 Hnot) as H.
    destruct (file_operations host arguments w0) as [[r | e] w']; exact H.
  - destruct (eq_str tool_name "current_time");
      [apply keeps_files_guarded, current_time_keeps_files | reflexivity].
Qed.

Lemma only_write_changes_files_witness :
  fs (snd (call_tool sample_host (JStr "file_operations") (path_arguments "read" ".")
             dir_world))
  = fs dir_world.
Proof.
  apply (only_write_changes_files sample_host (JStr "file_operations")
           (path_arguments "read" ".") dir_world).
  right. discriminate.
Defined.

(** X18: on a path that does not exist, [read], [list], [exists] and
    [size] all succeed, without [isError], with a text that says so, and
    change nothing. *)
Theorem absent_path_is_reported (host : Host) (w : world) (p : string) :
  fs w !! p = None ->
  file_operations host (path_arguments "read" p) w
    = (Return (success (JStr ("File " +:+ p +:+ " not found"))), w)
  /\ file_operations host (path_arguments "list" p) w
    = (Return (success (JStr ("Path " +:+ p +:+ " is not a directory"))), w)
  /\ file_operations host (path_arguments "exists" p) w
    = (Return (success (JStr ("Path " +:+ p +:+ " does not exist"))), w)
  /\ file_operations host (path_arguments "size" p) w
    = (Return (success (JStr ("Path " +:+ p +:+ " does not exist"))), w).
Proof.
  intros Habsent.
  repeat split; unfold file_operations, path_arguments; run_monad;
    unfold os_path_isfile, os_path_isdir, os_path_exists; rewrite Habsent; reflexivity.
Qed.

Lemma absent_path_is_reported_witness :
  fs empty_world !! "missing.txt" = None
  /\ file_operations sample_host (path_arguments "read" "missing.txt") empty_world
     = (Return (success (JStr "File missing.txt not found")), empty_world)
  /\ file_operations sample_host (path_arguments "list" "missing.txt") empty_world
     = (Return (success (JStr "Path missing.txt is not a directory")), empty_world)
  /\ file_operations sample_host (path_arguments "exists" "missing.txt") empty_world
     = (Return (success (JStr "Path missing.txt does not exist")), empty_world)
  /\ file_operations sample_host (path_arguments "size" "missing.txt") empty_world
     = (Return (success (JStr "Path missing.txt does not exist")), empty_world).
Proof.
  split; [vm_compute; reflexivity |].
  apply (absent_path_is_reported sample_host empty_world "missing.txt").
  vm_compute. reflexivity.
Defined.







(** ** Further properties of the transport loop *)

Lemma quiet_unchanged {A} (m : M A) (w : world) :
  io (snd (m w)) = io w -> fs (snd (m w)) = fs w -> quiet m w.
Proof. intros Hio Hfs. split; [assumption |]. now rewrite Hfs. Qed.

Lemma quiet_guarded (m : M json) (handler : exn -> json) (w : world) :
  quiet m w -> quiet (try_except m (fun e => ret (handler e))) w.
Proof.
  unfold quiet, try_except. run_monad.
  destruct (m w) as [[r | e] w']; exact (fun H => H).
Qed.

Lemma text_transform_quiet (host : Host) (arguments : json) (w : world) :
  quiet (text_transform host arguments) w.
Proof.
  apply quiet_unchanged; unfold text_transform; destruct arguments; try reflexivity;
    run_monad; default_of "text" text; default_of "operation" operation;
    repeat break_if; first [reflexivity | destruct text; reflexivity].
Qed.

Lemma calculate_quiet (host : Host) (arguments : json) (w : world) :
  quiet (calculate host arguments) w.
Proof.
  apply quiet_unchanged; unfold calculate; destruct arguments; try reflexivity;
    run_monad; default_of "expression" expression;
    destruct expression; try reflexivity; simpl;
    (destruct (match_class_plus false s); simpl; [| reflexivity]);
    destruct (py_eval host s); reflexivity.
Qed.

Lemma system_info_quiet (host : Host) (arguments : json) (w : world) :
  quiet (system_info host arguments) w.
Proof.
  apply quiet_unchanged; unfold system_info; destruct arguments; try reflexivity;
    run_monad; default_of "info_type" info_type;
    repeat break_if; simpl; repeat break_result; reflexivity.
Qed.

Lemma current_time_quiet (host : Host) (arguments : json) (w : world) :
  quiet (current_time host arguments) w.
Proof.
  apply quiet_unchanged; unfold current_time; destruct arguments; try reflexivity;
    run_monad; default_of "format" format_type; default_of "custom_format" custom_format;
    repeat break_if; simpl;
    try (destruct (truthy custom_format);
         [unfold py_strftime; destruct custom_format |]; simpl);
    repeat break_result; reflexivity.
Qed.

Lemma insert_file_no_device (files : gmap string node) (p q : string) (data : string) :
  <[p := File data]> files !! q = Some Special -> files !! q = Some Special.
Proof.
  destruct (decide (p = q)) as [-> | Hne].
  - rewrite lookup_insert_eq. discriminate.
  - now rewrite lookup_insert_ne.
Qed.

Lemma file_operations_quiet (host : Host) (arguments : json) (w : world) (p : string) :
  argument arguments "path" (JStr "") = JStr p ->
  fs w !! p <> Some Special ->
  quiet (file_operations host arguments) w.
Proof.
  unfold quiet, file_operations, argument. destruct arguments; try (split; auto; fail).
  run_monad. default_of "operation" operation. default_of "path" path.
  default_of "content" content. intros -> Hdevice.
  repeat break_if; simpl.
  all: unfold os_path_isdir, os_path_isfile, os_path_exists, os_path_getsize, listdir,
         read_file, write_file; simpl.
  all: repeat break_match.
  all: try congruence.
  all: split; [reflexivity |]; simpl; intros q; try (exact (fun H => H));
    apply insert_file_no_device.
Qed.

Lemma call_tool_quiet (host : Host) (tool_name arguments : json) (w : world) :
  (tool_name = JStr "file_operations" ->
   exists p, argument arguments "path" (JStr "") = JStr p /\ fs w !! p <> Some Special) ->
  quiet (call_tool host tool_name arguments) w.
Proof.
  intros Hpath. unfold call_tool. unfold bind at 1. unfold log at 1.
  set (w0 := add_event (EvCallTool tool_name arguments) w).
  change (quiet (fun _ =>
                   try_except
                     (if eq_str tool_name "text_transform" then text_transform host arguments
                      else if eq_str tool_name "calculate" then calculate host arguments
                      else if eq_str tool_name "system_info" then system_info host arguments
                      else if eq_str tool_name "file_operations"
                           then file_operations host arguments
                      else if eq_str tool_name "current_time" then current_time host arguments
                      else ret (failure ("Tool not implemented: " +:+ py_str host tool_name)))
                     (fun e =>
                        ret (failure ("Error executing tool " +:+ py_str host tool_name
                                      +:+ ": " +:+ exn_msg e))) w0) w).
  unfold quiet at 1. simpl. change (io w) with (io w0). change (fs w) with (fs w0).
  destruct (eq_str tool_name "text_transform");
    [apply quiet_guarded, text_transform_quiet |].
  destruct (eq_str tool_name "calculate");
    [apply quiet_guarded, calculate_quiet |].
  destruct (eq_str tool_name "system_info");
    [apply quiet_guarded, system_info_quiet |].
  destruct (eq_str tool_name "file_operations") eqn:Hfile.
  - apply eq_str_true in Hfile. destruct (Hpath Hfile) as (p & Hp & Hdevice).
    apply quiet_guarded. now apply (file_operations_quiet host arguments w0 p).
  - destruct (eq_str tool_name "current_time");
      [apply quiet_guarded, current_time_quiet | split; [reflexivity | auto]].
Qed.

Lemma handle_request_quiet (host : Host) (request : json) (w : world) :
  off_stream request w -> quiet (handle_request host request) w.
Proof.
  unfold off_stream, request_tool, request_arguments, request_params, argument.
  unfold handle_request.
  destruct request as [| | | | | | d]; try (intros _; run_monad; split; [reflexivity | auto]).
  run_monad. default_of "method" method. default_of "params" params.
  destruct (eq_str method "tools/list"); [intros _; split; [reflexivity | auto] |].
  destruct (eq_str method "tools/call"); [| intros _; split; [reflexivity | auto]].
  destruct params as [| | | | | | p]; try (intros _; split; [reflexivity | auto]).
  simpl. default_of "name" tool_name. default_of "arguments" arguments.
  intros Hpath.
  destruct (tools_contains tool_name) as [[|] | e]; simpl;
    try (split; [reflexivity | auto]).
  apply (call_tool_quiet host tool_name arguments (add_event (EvDispatch (JDict d)) w)).
  exact Hpath.
Qed.

Lemma run_except_uniform (e : exn) : uniform (run_except e).
Proof. unfold run_except. destruct (exn_kind e); apply failure_uniform. Qed.

Lemma handle_request_answer (host : Host) (request : json) (w : world) :
  match handle_request host request w with
  | (Return r, _) => answer r
  | (Raise _, _) => True
  end.
Proof.
  destruct (eq_str (request_method request) "tools/list") eqn:Hm.
  - apply eq_str_true in Hm.
    destruct request as [| | | | | | d]; try discriminate.
    rewrite (handle_tools_list host w d).
    + right. eexists. reflexivity.
    + unfold tools_list_request. unfold request_method, argument in Hm. simpl in Hm.
      destruct (dict_get d "method"); congruence.
  - apply eq_str_false in Hm.
    pose proof (handle_request_outcome host request w Hm) as Hout.
    destruct (handle_request host request w) as [[r | e] w']; [| exact I].
    left. destruct Hout as (evs & _ & [([text ->] & _) | ([msg ->] & _)]);
      [apply success_uniform | apply failure_uniform].
Qed.

(** One pass on healthy streams, over an item that is not the end of the
    stream and whose request, if it parses, stays off the streams. *)
Lemma run_iteration_answers (host : Host) (w : world) (item : result string)
    (rest : list (result string)) :
  healthy (io w) ->
  stdin (io w) = item :: rest ->
  item <> Return "" ->
  (forall line request,
     item = Return line -> json_loads host (py_strip line) = Return request ->
     off_stream request w) ->
  exists r w',
    run_iteration host w = (Return true, w')
    /\ stdin (io w') = rest
    /\ stdout (io w') = stdout (io w) ++ [Printed r]
    /\ answer r
    /\ healthy (io w')
    /\ (forall p, fs w' !! p = Some Special -> fs w !! p = Some Special).
Proof.
  intros [Hin Hout] Hitem Hne Hsafe.
  unfold run_iteration, readline. run_monad. rewrite Hin, Hitem.
  destruct item as [line | e]; run_monad.
  - destruct (String.eqb line "") eqn:Hline;
      [apply String.eqb_eq in Hline; congruence |].
    destruct (json_loads host (py_strip line)) as [request | e] eqn:Hparse; run_monad.
    + set (w1 := set_io (set_stdin rest (io w)) w).
      assert (Hoff : off_stream request w1) by exact (Hsafe line request eq_refl Hparse).
      destruct (handle_request_quiet host request w1 Hoff) as [Hio Hfs].
      pose proof (handle_request_answer host request w1) as Hanswer.
      destruct (handle_request host request w1) as [[r | e] w2]; simpl in *;
        unfold print; run_monad; rewrite Hio; simpl; rewrite Hout.
      * exists r. eexists. split; [reflexivity |]. simpl. rewrite ?Hio. simpl.
        repeat split; auto.
      * exists (run_except e). eexists. split; [reflexivity |]. simpl. rewrite ?Hio. simpl.
        repeat split; auto. left. apply run_except_uniform.
    + unfold print. run_monad. rewrite Hout.
      exists (run_except e). eexists. split; [reflexivity |]. simpl.
      repeat split; auto. left. apply run_except_uniform.
  - unfold print. run_monad. rewrite Hout.
    exists (run_except e). eexists. split; [reflexivity |]. simpl.
    repeat split; auto. left. apply run_except_uniform.
Qed.

Lemma run_loop_answers (host : Host) (items : list (result string)) :
  forall w,
    healthy (io w) ->
    stdin (io w) = items ->
    Forall (fun item => item <> Return "") items ->
    (forall line request,
       In (Return line) items -> json_loads host (py_strip line) = Return request ->
       off_stream request w) ->
    exists w' outs,
      run_loop host (S (length items)) w = Some (Return tt, w')
      /\ stdin (io w') = []
      /\ stdout (io w') = stdout (io w) ++ map Printed outs
      /\ length outs = length items
      /\ Forall answer outs
      /\ healthy (io w').
Proof.
  induction items as [| item items IH]; intros w Hhealthy Hin Hall Hsafe.
  - exists w, []. split.
    + destruct Hhealthy as [Hclosed _].
      simpl. unfold run_iteration, readline. run_monad. now rewrite Hclosed, Hin.
    + simpl. rewrite app_nil_r. repeat split; auto; apply Hhealthy.
  - apply Forall_cons_iff in Hall as [Hne Hall].
    destruct (run_iteration_answers host w item items Hhealthy Hin Hne)
      as (r & w1 & Hstep & Hrest & Hout & Hr & Hh1 & Hfs).
    { intros line request -> Hparse. apply (Hsafe line request); [now left | assumption]. }
    destruct (IH w1 Hh1 Hrest Hall) as (w' & outs & Hrun & Hend & Houts & Hlen & Hanswers & Hh');
      [| exists w', (r :: outs)].
    { intros line request Hline Hparse Htool.
      destruct (Hsafe line request (or_intror Hline) Hparse Htool) as (p & Hp & Hdevice).
      exists p. split; [assumption |]. intros Hspecial. apply Hdevice. now apply Hfs. }
    split.
    + change (run_loop host (S (length (item :: items))) w)
        with (match run_iteration host w with
              | (Return true, w1) => run_loop host (S (length items)) w1
              | (Return false, w1) => Some (Return tt, w1)
              | (Raise e1, w1) => Some (Raise e1, w1)
              end).
      now rewrite Hstep.
    + split; [assumption |]. split; [rewrite Houts, Hout, <- app_assoc; reflexivity |].
      split; [simpl; now rewrite Hlen |]. split; [now constructor | assumption].
Qed.

(** X22: on healthy streams, when no item of the input is an empty line
    and every request that parses stays off the standard streams (it opens
    no descriptor and no device), the loop ends normally at the end of the
    input, with both streams still open, and has printed, after what was
    already printed, exactly one response per item of the input, each a
    uniform response or a listing of tools. *)
Theorem run_answers_every_line (host : Host) (w : world) :
  healthy (io w) ->
  Forall (fun item => item <> Return "") (stdin (io w)) ->
  (forall line request,
     In (Return line) (stdin (io w)) ->
     json_loads host (py_strip line) = Return request ->
     off_stream request w) ->
  exists w' outs,
    run host w = Some (Return tt, w')
    /\ stdin (io w') = []
    /\ stdout (io w') = stdout (io w) ++ map Printed outs
    /\ length outs = length (stdin (io w))
    /\ Forall answer outs
    /\ healthy (io w').
Proof.
  intros Hhealthy Hall Hsafe. unfold run.
  now apply run_loop_answers.
Qed.

Lemma run_answers_every_line_witness :
  healthy (io (reading sample_lines empty_world))
  /\ Forall (fun item => item <> Return "") (stdin (io (reading sample_lines empty_world)))
  /\ exists w' outs,
       run sample_host (reading sample_lines empty_world) = Some (Return tt, w')
       /\ stdin (io w') = []
       /\ stdout (io w') = stdout (io (reading sample_lines empty_world)) ++ map Printed outs
       /\ length outs = length (stdin (io (reading sample_lines empty_world)))
       /\ Forall answer outs
       /\ healthy (io w').
Proof.
  split; [split; reflexivity |].
  split; [repeat constructor; discriminate |].
  apply (run_answers_every_line sample_host (reading sample_lines empty_world)).
  - split; reflexivity.
  - repeat constructor; discriminate.
  - intros line request [H | [H | []]]; injection H as <-; vm_compute;
      intros Hparse; [discriminate Hparse |].
    injection Hparse as <-. discriminate.
Defined.

(** X23: a line that parses to a value that is not a mapping makes the
    dispatcher raise at [request.get]; on healthy streams the catch-all of
    the loop prints "Server error: '<type>' object has no attribute 'get'"
    and the loop goes on with the rest of the input. *)
Theorem request_not_a_mapping (host : Host) (w : world) (line : string)
    (rest : list (result string)) (request : json) :
  healthy (io w) ->
  stdin (io w) = Return line :: rest ->
  line <> "" ->
  json_loads host (py_strip line) = Return request ->
  is_mapping request = false ->
  run_iteration host w
  = (Return true, after_server_error w rest request (no_attribute request "get"))
  /\ exn_msg (no_attribute request "get")
     = "'" +:+ type_name request +:+ "' object has no attribute 'get'".
Proof.
  intros [Hin Hout] Hline Hne Hparse Hmap. split; [| reflexivity].
  unfold run_iteration, readline. run_monad.
  rewrite Hin, Hline. simpl. rewrite (eqb_nonempty _ Hne), Hparse.
  unfold handle_request, print.
  destruct request; try discriminate; run_monad; rewrite Hout;
    unfold after_server_error, set_io, put, add_event, set_stdin; simpl;
    rewrite <- app_assoc; reflexivity.
Qed.

Lemma request_not_a_mapping_witness :
  healthy (io (reading ["[]" +:+ nl] empty_world))
  /\ "[]" +:+ nl <> ""
  /\ run_iteration sample_host (reading ["[]" +:+ nl] empty_world)
     = (Return true,
        after_server_error (reading ["[]" +:+ nl] empty_world) [] (JList [])
          (no_attribute (JList []) "get"))
  /\ exn_msg (no_attribute (JList []) "get")
     = "'" +:+ type_name (JList []) +:+ "' object has no attribute 'get'".
Proof.
  split; [split; reflexivity |]. split; [discriminate |].
  apply (request_not_a_mapping sample_host (reading ["[]" +:+ nl] empty_world)
           ("[]" +:+ nl) [] (JList [])).
  - split; reflexivity.
  - reflexivity.
  - discriminate.
  - reflexivity.
  - reflexivity.
Defined.

(** X24: a [tools/call] request whose [params] is not a mapping makes
    the dispatcher raise the [AttributeError] of [params.get], after the
    dispatch was logged; the loop turns it into "Server error: '<type>'
    object has no attribute 'get'". *)
Theorem params_not_a_mapping (host : Host) (w : world) (d : list (string * json))
    (params : json) :
  dict_get d "method" = Some (JStr "tools/call") ->
  dict_get d "params" = Some params ->
  is_mapping params = false ->
  handle_request host (JDict d) w
    = (Raise (no_attribute params "get"), add_event (EvDispatch (JDict d)) w)
  /\ run_except (no_attribute params "get")
    = failure ("Server error: '" +:+ type_name params +:+ "' object has no attribute 'get'").
Proof.
  intros Hm Hp Hmap. split; [| reflexivity].
  unfold handle_request. run_monad. rewrite Hm, Hp. simpl.
  destruct params; try discriminate; reflexivity.
Qed.

Lemma params_not_a_mapping_witness :
  handle_request sample_host
    (JDict [("method", JStr "tools/call"); ("params", JList [])]) empty_world
    = (Raise (no_attribute (JList []) "get"),
       add_event (EvDispatch (JDict [("method", JStr "tools/call"); ("params", JList [])]))
         empty_world)
  /\ run_except (no_attribute (JList []) "get")
    = failure ("Server error: '" +:+ type_name (JList []) +:+ "' object has no attribute 'get'").
Proof.
  apply (params_not_a_mapping sample_host empty_world
           [("method", JStr "tools/call"); ("params", JList [])] (JList [])).
  - reflexivity.
  - reflexivity.
  - reflexivity.
Defined.
